(** * FreakSearch: the claim-verification pipeline of [model.py]

    A shallow embedding of [backend/model.py] (search helper, scraper,
    OCR helper, intent recognition, fact-checking and the main handler)
    together with the properties of the pipeline.

    Python values are modelled as follows.
    - [str] is [string]; a character is a code point below 256 (the
      Latin-1 block), for which Python's [str.strip], [str.lower] and
      [repr] tables are reproduced below.
    - [bytes] is [list byte].
    - [None]-or-value is [option]; Python truthiness is written out
      ([truthy_str], [truthy_bytes]).
    - A raised exception is [Raise e], with [e] the text [str(e)] gives.
    - Calls that leave the process (OCR engine, search API, HTTP GET,
      language model) are oracles of a [world]; each call is appended to
      a chronological [trace], and an oracle sees the trace so far, so
      the same request may be answered differently at different times.
      [print] is recorded in the trace as well. *)

From Stdlib Require Import String Ascii List Bool Arith ZArith Lia.
From Stdlib Require Import Strings.Byte.
From Stdlib Require Import DecimalString.
Import ListNotations.
Local Open Scope list_scope.
Local Open Scope string_scope.

(* ===================================================================== *)
(** ** Python strings *)
(* ===================================================================== *)

Module PyStr.

Definition dquote : ascii := "034"%char.
Definition squote : ascii := "039"%char.
Definition backslash : ascii := "092"%char.
Definition nl : ascii := "010"%char.
Definition NL : string := String nl "".
Definition DQ : string := String dquote "".

(** [between lo n hi] is [lo <= n <= hi]. *)
Definition between (lo n hi : nat) : bool := Nat.leb lo n && Nat.leb n hi.

(** [str.isspace] on one code point below 256. *)
Definition isspace (c : ascii) : bool :=
  let n := nat_of_ascii c in
  between 9 n 13 || between 28 n 32 || Nat.eqb n 133 || Nat.eqb n 160.

Fixpoint lstrip (s : string) : string :=
  match s with
  | EmptyString => EmptyString
  | String c r => if isspace c then lstrip r else s
  end.

Fixpoint rstrip (s : string) : string :=
  match s with
  | EmptyString => EmptyString
  | String c r =>
      match rstrip r with
      | EmptyString => if isspace c then EmptyString else String c EmptyString
      | r' => String c r'
      end
  end.

(** [s.strip()] *)
Definition strip (s : string) : string := rstrip (lstrip s).

(** [str.lower] on one code point below 256: A-Z, and the Latin-1
    capitals U+00C0..U+00DE except the multiplication sign U+00D7. *)
Definition lower_char (c : ascii) : ascii :=
  let n := nat_of_ascii c in
  if between 65 n 90 || (between 192 n 222 && negb (Nat.eqb n 215))
  then ascii_of_nat (n + 32) else c.

Fixpoint lower (s : string) : string :=
  match s with
  | EmptyString => EmptyString
  | String c r => String (lower_char c) (lower r)
  end.

(** [s.replace(c, "")] for a one-character [c]. *)
Fixpoint remove_char (c : ascii) (s : string) : string :=
  match s with
  | EmptyString => EmptyString
  | String d r => if Ascii.eqb d c then remove_char c r else String d (remove_char c r)
  end.

(** [needle in hay] on strings. *)
Fixpoint contains (needle hay : string) : bool :=
  prefix needle hay ||
  match hay with
  | EmptyString => false
  | String _ r => contains needle r
  end.

Fixpoint has_char (c : ascii) (s : string) : bool :=
  match s with
  | EmptyString => false
  | String d r => Ascii.eqb d c || has_char c r
  end.

(** [sep.join(l)] *)
Definition join (sep : string) (l : list string) : string := String.concat sep l.

(** [s[:n]] *)
Definition slice_to (n : nat) (s : string) : string := substring 0 n s.

(** [str(n)] for a non-negative integer. *)
Definition of_nat (n : nat) : string := NilEmpty.string_of_uint (Nat.to_uint n).

(** [str(x)] for a value that may be [None]. *)
Definition of_opt (o : option string) : string :=
  match o with
  | Some s => s
  | None => "None"
  end.

Definition hex_digit (n : nat) : ascii :=
  if Nat.ltb n 10 then ascii_of_nat (48 + n) else ascii_of_nat (87 + n).

(** [str.isprintable] on one code point below 256. *)
Definition isprintable (c : ascii) : bool :=
  let n := nat_of_ascii c in
  between 32 n 126 || (between 161 n 255 && negb (Nat.eqb n 173)).

Definition repr_char (quote c : ascii) : string :=
  let n := nat_of_ascii c in
  if Ascii.eqb c quote || Ascii.eqb c backslash then String backslash (String c "")
  else if Nat.eqb n 9 then String backslash "t"
  else if Nat.eqb n 10 then String backslash "n"
  else if Nat.eqb n 13 then String backslash "r"
  else if isprintable c then String c ""
  else String backslash (String "x" (String (hex_digit (n / 16)) (String (hex_digit (n mod 16)) ""))).

Fixpoint repr_body (quote : ascii) (s : string) : string :=
  match s with
  | EmptyString => EmptyString
  | String c r => repr_char quote c ++ repr_body quote r
  end.

(** [repr(s)] for a [str]: single quotes unless the text has a single
    quote and no double quote. *)
Definition repr (s : string) : string :=
  let quote := if has_char squote s && negb (has_char dquote s) then dquote else squote in
  String quote (repr_body quote s ++ String quote "").

(** [str(l)] for a list of [str]. *)
Definition repr_list (l : list string) : string :=
  "[" ++ join ", " (map repr l) ++ "]".

End PyStr.

(* ===================================================================== *)
(** ** Effects: outcomes, traces and the pipeline monad *)
(* ===================================================================== *)

Definition bytes := list byte.

(** What [str(e)] gives for a raised exception. *)
Definition exn := string.

Inductive outcome (A : Type) : Type :=
| Ret (a : A)
| Raise (e : exn).
Arguments Ret {A} a.
Arguments Raise {A} e.

(** One call that leaves the pipeline. *)
Inductive event : Type :=
| EvImageOpen (image_bytes : bytes)
| EvOcr (image : bytes)
| EvSearch (q : string) (num : nat)
| EvHttpGet (url : string)
| EvGenerate (prompt : string)
| EvPrint (line : string).

Definition trace := list event.

Definition M (A : Type) : Type := trace -> outcome A * trace.

Definition ret {A} (a : A) : M A := fun h => (Ret a, h).

Definition bind {A B} (m : M A) (k : A -> M B) : M B :=
  fun h =>
    match m h with
    | (Ret a, h') => k a h'
    | (Raise e, h') => (Raise e, h')
    end.

(** [try: body / except Exception as e: handler e].  What the body did
    before raising stays done. *)
Definition try_except {A} (body : M A) (handler : exn -> M A) : M A :=
  fun h =>
    match body h with
    | (Ret a, h') => (Ret a, h')
    | (Raise e, h') => handler e h'
    end.

(** An oracle call: record the event, then ask the oracle, which sees
    the trace before the call. *)
Definition call {A} (ev : event) (oracle : trace -> outcome A) : M A :=
  fun h => (oracle h, (h ++ [ev])%list).

Definition print (line : string) : M unit :=
  fun h => (Ret tt, (h ++ [EvPrint line])%list).

Declare Scope py_scope.
Delimit Scope py_scope with py.
Notation "x <- m ;; k" := (bind m (fun x => k))
  (at level 61, m at next level, right associativity) : py_scope.
Notation "m ;;; k" := (bind m (fun _ => k))
  (at level 61, right associativity) : py_scope.
Local Open Scope py_scope.

(* ===================================================================== *)
(** ** The world outside the pipeline *)
(* ===================================================================== *)

(** One entry of the search response's ['items']: a dict read through
    [.get("link")] and [.get('title')], so every key may be missing. *)
Record search_item : Type := {
  title : option string;
  link : option string;
  snippet : option string
}.

(** The search response: a dict whose ['items'] key may be missing. *)
Record search_response : Type := {
  items : option (list search_item)
}.

(** What [requests.get] returns. *)
Record http_response : Type := {
  status_code : nat;
  content : bytes
}.

Record world : Type := {
  (** [os.getenv] of the three keys *)
  GOOGLE_API_KEY : option string;
  SEARCH_ENGINE_ID : option string;
  GEMINI_API_KEY : option string;
  (** [Image.open(io.BytesIO(image_bytes))] *)
  Image_open : trace -> bytes -> outcome bytes;
  (** [pytesseract.image_to_string(image)] *)
  image_to_string : trace -> bytes -> outcome string;
  (** [build(...).cse().list(q=query, cx=..., num=num).execute()] *)
  cse_list : trace -> string -> nat -> outcome search_response;
  (** [requests.get(url, headers=..., timeout=10)] *)
  requests_get : trace -> string -> outcome http_response;
  (** [[p.get_text() for p in BeautifulSoup(content, 'html.parser').find_all('p')]] *)
  find_all_p_text : bytes -> outcome (list string);
  (** [genai.GenerativeModel(...).generate_content(prompt).text] *)
  generate_content : trace -> string -> outcome string
}.

(** Python truthiness of a [str]-or-[None] and of a [bytes]-or-[None]. *)
Definition truthy_str (o : option string) : bool :=
  match o with
  | Some (String _ _) => true
  | _ => false
  end.

Definition truthy_bytes (o : option bytes) : bool :=
  match o with
  | Some (_ :: _) => true
  | _ => false
  end.

Inductive Intent : Type :=
| greeting
| fact_checking_claim
| general_question.

(* ===================================================================== *)
(** ** model.py *)
(* ===================================================================== *)

Section Model.

Variable w : world.

(** [search_the_web_google(query)] *)
Definition search_the_web_google (query : string) : M (list search_item) :=
  if negb (truthy_str (GOOGLE_API_KEY w)) || negb (truthy_str (SEARCH_ENGINE_ID w))
  then ret []
  else
    try_except
      (res <- call (EvSearch query 3) (fun h => cse_list w h query 3) ;;
       ret (match items res with Some l => l | None => [] end))
      (fun e => print ("Google API search error: " ++ e) ;;; ret []).

(** [scrape_url_content(url)] *)
Definition scrape_url_content (url : string) : M string :=
  try_except
    (response <- call (EvHttpGet url) (fun h => requests_get w h url) ;;
     paragraphs <- (fun h => (find_all_p_text w (content response), h)) ;;
     ret (PyStr.slice_to 2500 (PyStr.join " " paragraphs)))
    (fun e => print ("Error scraping " ++ url ++ ": " ++ e) ;;; ret "").

(** [get_text_from_image(image_bytes)]; [None] is Python's [None]. *)
Definition get_text_from_image (image_bytes : bytes) : M (option string) :=
  try_except
    (image <- call (EvImageOpen image_bytes) (fun h => Image_open w h image_bytes) ;;
     text <- call (EvOcr image) (fun h => image_to_string w h image) ;;
     ret (Some (PyStr.strip text)))
    (fun e => print ("OCR error: " ++ e) ;;; ret None).

Definition greetings : list string :=
  ["hello"; "hi"; "vanakkam"; "hai"; "good morning"; "good evening"].

Definition indent : string := "        ".

(** The classification prompt of [recognize_intent]. *)
Definition intent_prompt (user_input : string) : string :=
  PyStr.NL ++
  indent ++ "Analyze the user input and classify it into:" ++ PyStr.NL ++
  indent ++ "1. fact_checking_claim" ++ PyStr.NL ++
  indent ++ "2. general_question" ++ PyStr.NL ++
  indent ++ "User Input: " ++ PyStr.DQ ++ user_input ++ PyStr.DQ ++ PyStr.NL ++
  indent ++ "Category:" ++ PyStr.NL ++
  indent.

(** [recognize_intent(user_input)] *)
Definition recognize_intent (user_input : string) : M Intent :=
  if existsb (String.eqb (PyStr.lower (PyStr.strip user_input))) greetings
  then ret greeting
  else if negb (truthy_str (GEMINI_API_KEY w))
  then ret fact_checking_claim
  else
    try_except
      (let prompt := intent_prompt user_input in
       response <- call (EvGenerate prompt) (fun h => generate_content w h prompt) ;;
       let intent := PyStr.remove_char PyStr.dquote (PyStr.lower (PyStr.strip response)) in
       ret (if PyStr.contains "fact_checking_claim" intent
            then fact_checking_claim else general_question))
      (fun e => print ("Intent recognition error: " ++ e) ;;; ret fact_checking_claim).

(** One line group appended to [context] for a result with a link. *)
Definition source_entry (i : nat) (result : search_item) (url content : string) : string :=
  "Source [" ++ PyStr.of_nat (i + 1) ++ "]: " ++ PyStr.of_opt (title result) ++ PyStr.NL ++
  "URL: " ++ url ++ PyStr.NL ++
  "Content: " ++ content ++ PyStr.NL ++ PyStr.NL.

(** The loop [for i, result in enumerate(search_results)] of
    [verify_misinformation], from index [i] with the accumulators
    [context] and [sources]. *)
Fixpoint gather (i : nat) (search_results : list search_item)
    (context : string) (sources : list string) : M (string * list string) :=
  match search_results with
  | [] => ret (context, sources)
  | result :: rest =>
      if truthy_str (link result)
      then
        let url := PyStr.of_opt (link result) in
        content <- scrape_url_content url ;;
        gather (S i) rest (context ++ source_entry i result url content) (sources ++ [url])%list
      else gather (S i) rest context sources
  end.

(** The analysis prompt of [verify_misinformation]. *)
Definition verdict_prompt (claim context : string) (sources : list string) : string :=
  PyStr.NL ++
  indent ++ "You are a multilingual Misinformation Analyst." ++ PyStr.NL ++
  indent ++ "USER CLAIM: " ++ PyStr.DQ ++ claim ++ PyStr.DQ ++ PyStr.NL ++
  indent ++ "CONTEXT: " ++ context ++ PyStr.NL ++
  indent ++ "INSTRUCTIONS:" ++ PyStr.NL ++
  indent ++ "1.Analyze the language of the *USER'S CLAIM.SPECIAL RULE:If the text is in the Roman alphabet,you MUST assume the language is **ENGLISH*" ++ PyStr.NL ++
  indent ++ "2. Analyze context and give verdict." ++ PyStr.NL ++
  indent ++ "3. Report format: " ++ PyStr.DQ ++ "Verdict: [Factually True/False/Misleading/Unverified]" ++ PyStr.DQ ++ PyStr.NL ++
  indent ++ "Sources: " ++ PyStr.repr_list (firstn 3 sources) ++ PyStr.NL ++
  indent.

Definition MSG_NO_RESULTS : string :=
  "Error: Could not fetch search results. Check API keys or quota.".
Definition MSG_NO_GEMINI : string :=
  "Google search fetched content, but Gemini API key missing for analysis.".
Definition MSG_NO_IMAGE_TEXT : string := "Error: No text read from image.".
Definition MSG_NO_INPUT : string := "Error: No input provided.".
Definition MSG_GREETING : string := "Hello! I am FreakSearch. Provide a claim to verify.".
Definition MSG_ONLY_CLAIMS : string := "I am FreakSearch. I only verify news claims.".

(** [verify_misinformation(claim)] *)
Definition verify_misinformation (claim : string) : M string :=
  search_results <- search_the_web_google claim ;;
  match search_results with
  | [] => ret MSG_NO_RESULTS
  | _ :: _ =>
      bundle <- gather 0 search_results "" [] ;;
      let (context, sources) := (bundle : string * list string) in
      if negb (truthy_str (GEMINI_API_KEY w))
      then ret MSG_NO_GEMINI
      else
        try_except
          (let prompt := verdict_prompt claim context sources in
           call (EvGenerate prompt) (fun h => generate_content w h prompt))
          (fun e => ret ("Gemini analysis error: " ++ e))
  end.

(** The tail of [freaksearch_handler], from [if not text] on. *)
Definition respond (text : option string) : M string :=
  match text with
  | Some (String c r) =>
      let text := String c r in
      intent <- recognize_intent text ;;
      match intent with
      | greeting => ret MSG_GREETING
      | fact_checking_claim => verify_misinformation text
      | general_question => ret MSG_ONLY_CLAIMS
      end
  | _ => ret MSG_NO_INPUT
  end.

(** [freaksearch_handler(user_input, image_bytes=None)] *)
Definition freaksearch_handler (user_input : option string) (image_bytes : option bytes)
    : M string :=
  if truthy_bytes image_bytes
  then
    text <- get_text_from_image (match image_bytes with Some b => b | None => [] end) ;;
    if negb (truthy_str text)
    then ret MSG_NO_IMAGE_TEXT
    else respond text
  else respond user_input.

End Model.

(* ===================================================================== *)
(** ** Counting calls in a trace *)
(* ===================================================================== *)

Definition is_search (e : event) : bool :=
  match e with EvSearch _ _ => true | _ => false end.
Definition is_fetch (e : event) : bool :=
  match e with EvHttpGet _ => true | _ => false end.
Definition is_generate (e : event) : bool :=
  match e with EvGenerate _ => true | _ => false end.

(** How many events of a trace satisfy [p]. *)
Definition calls (p : event -> bool) (h : trace) : nat := length (filter p h).

(** The results of a search that carry a usable (truthy) link, in order. *)
Fixpoint usable_links (rs : list search_item) : list string :=
  match rs with
  | [] => []
  | r :: rest =>
      if truthy_str (link r) then PyStr.of_opt (link r) :: usable_links rest
      else usable_links rest
  end.

(** A search provider that returns no more entries than it was asked for. *)
Definition honours_num (w : world) : Prop :=
  forall h q n r l, cse_list w h q n = Ret r -> items r = Some l -> length l <= n.

(** The model response as [recognize_intent] reads it. *)
Definition normalize_label (response : string) : string :=
  PyStr.remove_char PyStr.dquote (PyStr.lower (PyStr.strip response)).

(* ===================================================================== *)
(** ** The statements of the specification *)
(* ===================================================================== *)

(** [appends m allowed]: from every trace, [m] returns normally and only
    appends events that [allowed] admits. *)
Definition appends {A} (m : M A) (allowed : event -> bool) : Prop :=
  forall h, exists a evs,
    m h = (Ret a, (h ++ evs)%list) /\ forallb allowed evs = true.

(** "The normalized model response contains the label", in the words of
    the specification: the label occurs somewhere in the trimmed,
    lowercased, quote-stripped response. *)
Definition has_claim_label (response : string) : Prop :=
  exists before after,
    normalize_label response = before ++ "fact_checking_claim" ++ after.

(** A fetch that fails: the request raises, or the page does not parse. *)
Definition fetch_fails (w : world) (h : trace) (url : string) (e : exn) : Prop :=
  requests_get w h url = Raise e \/
  exists response,
    requests_get w h url = Ret response /\ find_all_p_text w (content response) = Raise e.

(** C2 as the specification words it: a bundle without entries is
    answered with the fixed diagnostic and the model is not called. *)
Definition empty_bundle_is_diagnosed (w : world) (claim : string) (h : trace) : Prop :=
  forall results h1 context h2,
    search_the_web_google w claim h = (Ret results, h1) ->
    gather w 0 results "" [] h1 = (Ret (context, []), h2) ->
    exists h',
      verify_misinformation w claim h = (Ret MSG_NO_RESULTS, h') /\
      calls is_generate h' = calls is_generate h.

(** C4 as the specification words it: the scraper returns normally, and
    returns the empty string when the request raises, when the status
    is not 200, and when the page does not parse. *)
Definition scrape_blank_on_failure (w : world) (url : string) (h : trace) : Prop :=
  (exists body h', scrape_url_content w url h = (Ret body, h')) /\
  (forall e, requests_get w h url = Raise e ->
     fst (scrape_url_content w url h) = Ret "") /\
  (forall response, requests_get w h url = Ret response ->
     status_code response <> 200 ->
     fst (scrape_url_content w url h) = Ret "") /\
  (forall response e, requests_get w h url = Ret response ->
     find_all_p_text w (content response) = Raise e ->
     fst (scrape_url_content w url h) = Ret "").

(** C5 as the specification words it: [None] when decoding fails, when
    the OCR engine raises, and when the recognized text is empty after
    trimming; and the call returns normally. *)
Definition ocr_null_on_failure (w : world) (image_bytes : bytes) (h : trace) : Prop :=
  (exists text h', get_text_from_image w image_bytes h = (Ret text, h')) /\
  (forall e, Image_open w h image_bytes = Raise e ->
     fst (get_text_from_image w image_bytes h) = Ret None) /\
  (forall image e, Image_open w h image_bytes = Ret image ->
     image_to_string w (h ++ [EvImageOpen image_bytes])%list image = Raise e ->
     fst (get_text_from_image w image_bytes h) = Ret None) /\
  (forall image text, Image_open w h image_bytes = Ret image ->
     image_to_string w (h ++ [EvImageOpen image_bytes])%list image = Ret text ->
     PyStr.strip text = "" ->
     fst (get_text_from_image w image_bytes h) = Ret None).

(* ===================================================================== *)
(** ** Sample worlds *)
(* ===================================================================== *)

Module Scenarios.

Definition down {A} (msg : string) : outcome A := Raise msg.

(** Nothing configured, nothing reachable. *)
Definition offline : world := {|
  GOOGLE_API_KEY := None;
  SEARCH_ENGINE_ID := None;
  GEMINI_API_KEY := None;
  Image_open := fun _ _ => down "cannot identify image file";
  image_to_string := fun _ _ => down "tesseract is not installed";
  cse_list := fun _ _ _ => down "HttpError 403";
  requests_get := fun _ _ => down "ConnectTimeout";
  find_all_p_text := fun _ => Ret [];
  generate_content := fun _ _ => down "API key not valid"
|}.

Definition page (html : string) : bytes := list_byte_of_string html.

(** A model that labels every input a claim and every analysis Misleading. *)
Definition chatty_model (prompt : string) : outcome string :=
  if PyStr.contains "Category:" prompt
  then Ret (" " ++ PyStr.DQ ++ "Fact_Checking_Claim" ++ PyStr.DQ ++ PyStr.NL)
  else Ret "Verdict: Misleading".

Definition moon_results : list search_item :=
  [ {| title := Some "Apollo 11"; link := Some "https://a.example/apollo"; snippet := None |};
    {| title := Some "No link"; link := None; snippet := Some "cached copy" |};
    {| title := None; link := Some "https://b.example/down"; snippet := None |} ].

(** Everything configured; the second site is down. *)
Definition online : world := {|
  GOOGLE_API_KEY := Some "g-key";
  SEARCH_ENGINE_ID := Some "cx-1";
  GEMINI_API_KEY := Some "m-key";
  Image_open := fun _ b => Ret b;
  image_to_string := fun _ _ => Ret ("  Hello" ++ PyStr.NL);
  cse_list := fun _ _ n => Ret {| items := Some (firstn n moon_results) |};
  requests_get := fun _ url =>
    if String.eqb url "https://a.example/apollo"
    then Ret {| status_code := 200; content := page "<p>Eagle</p><p>landed</p>" |}
    else down "ConnectTimeout";
  find_all_p_text := fun c =>
    if list_eq_dec Byte.byte_eq_dec c (page "<p>Eagle</p><p>landed</p>")
    then Ret ["Eagle"; "landed"] else Ret [];
  generate_content := fun _ p => chatty_model p
|}.

(** The search answers with one entry that has a title but no link. *)
Definition linkless : world := {|
  GOOGLE_API_KEY := Some "g-key";
  SEARCH_ENGINE_ID := Some "cx-1";
  GEMINI_API_KEY := Some "m-key";
  Image_open := fun _ b => Ret b;
  image_to_string := fun _ _ => Ret "";
  cse_list := fun _ _ _ =>
    Ret {| items := Some [ {| title := Some "Untitled"; link := None; snippet := None |} ] |};
  requests_get := fun _ _ => down "ConnectTimeout";
  find_all_p_text := fun _ => Ret [];
  generate_content := fun _ _ => Ret "Verdict: Unverified"
|}.

(** Every page is answered 404 with an HTML error body. *)
Definition not_found : world := {|
  GOOGLE_API_KEY := Some "g-key";
  SEARCH_ENGINE_ID := Some "cx-1";
  GEMINI_API_KEY := Some "m-key";
  Image_open := fun _ b => Ret b;
  image_to_string := fun _ _ => Ret "";
  cse_list := fun _ _ _ => Ret {| items := None |};
  requests_get := fun _ _ =>
    Ret {| status_code := 404; content := page "<p>Not Found</p>" |};
  find_all_p_text := fun c =>
    if list_eq_dec Byte.byte_eq_dec c (page "<p>Not Found</p>")
    then Ret ["Not Found"] else Ret [];
  generate_content := fun _ _ => down "quota"
|}.

(** The image decodes, and the OCR engine sees only blanks in it. *)
Definition blank_image : world := {|
  GOOGLE_API_KEY := None;
  SEARCH_ENGINE_ID := None;
  GEMINI_API_KEY := None;
  Image_open := fun _ b => Ret b;
  image_to_string := fun _ _ => Ret ("  " ++ PyStr.NL);
  cse_list := fun _ _ _ => down "unreachable";
  requests_get := fun _ _ => down "unreachable";
  find_all_p_text := fun _ => Ret [];
  generate_content := fun _ _ => down "unreachable"
|}.

Definition png : bytes := [x89; x50; x4e; x47].

End Scenarios.

(* ===================================================================== *)
(** ** More event classes and string predicates *)
(* ===================================================================== *)

Definition is_image_open (e : event) : bool :=
  match e with EvImageOpen _ => true | _ => false end.
Definition is_ocr (e : event) : bool :=
  match e with EvOcr _ => true | _ => false end.
Definition is_print (e : event) : bool :=
  match e with EvPrint _ => true | _ => false end.

(** A string made of whitespace only (the empty string included). *)
Fixpoint all_space (s : string) : bool :=
  match s with
  | EmptyString => true
  | String c r => PyStr.isspace c && all_space r
  end.

(** The five answers the pipeline can give without a language model. *)
Definition fixed_answers_without_model : list string :=
  [MSG_NO_IMAGE_TEXT; MSG_NO_INPUT; MSG_GREETING; MSG_NO_RESULTS; MSG_NO_GEMINI].

(** More sample worlds. *)
Module Cases.

(** Keys configured, but the search provider refuses the request. *)
Definition quota_exceeded : world := {|
  GOOGLE_API_KEY := Some "g-key";
  SEARCH_ENGINE_ID := Some "cx-1";
  GEMINI_API_KEY := Some "m-key";
  Image_open := fun _ b => Ret b;
  image_to_string := fun _ _ => Ret "";
  cse_list := fun _ _ _ => Raise "HttpError 429";
  requests_get := fun _ _ => Raise "ConnectTimeout";
  find_all_p_text := fun _ => Ret [];
  generate_content := fun _ _ => Ret "general_question"
|}.

(** Search configured, no model key. *)
Definition search_only : world := {|
  GOOGLE_API_KEY := Some "g-key";
  SEARCH_ENGINE_ID := Some "cx-1";
  GEMINI_API_KEY := None;
  Image_open := fun _ b => Ret b;
  image_to_string := fun _ _ => Ret "";
  cse_list := fun _ _ n => Ret {| items := Some (firstn n Scenarios.moon_results) |};
  requests_get := fun _ _ => Raise "ConnectTimeout";
  find_all_p_text := fun _ => Ret [];
  generate_content := fun _ _ => Raise "API key not valid"
|}.

(** A model that calls everything a general question. *)
Definition dismissive : world := {|
  GOOGLE_API_KEY := Some "g-key";
  SEARCH_ENGINE_ID := Some "cx-1";
  GEMINI_API_KEY := Some "m-key";
  Image_open := fun _ b => Ret b;
  image_to_string := fun _ _ => Ret "";
  cse_list := fun _ _ n => Ret {| items := Some (firstn n Scenarios.moon_results) |};
  requests_get := fun _ _ => Raise "ConnectTimeout";
  find_all_p_text := fun _ => Ret [];
  generate_content := fun _ _ => Ret "General_Question"
|}.

(** A provider that ignores [num] and always returns four entries. *)
Definition four_results : list search_item :=
  [ {| title := Some "one"; link := Some "https://e.example/1"; snippet := None |};
    {| title := Some "two"; link := Some "https://e.example/2"; snippet := None |};
    {| title := Some "three"; link := Some "https://e.example/3"; snippet := None |};
    {| title := Some "four"; link := Some "https://e.example/4"; snippet := None |} ].

Definition greedy : world := {|
  GOOGLE_API_KEY := Some "g-key";
  SEARCH_ENGINE_ID := Some "cx-1";
  GEMINI_API_KEY := Some "m-key";
  Image_open := fun _ b => Ret b;
  image_to_string := fun _ _ => Ret "";
  cse_list := fun _ _ _ => Ret {| items := Some four_results |};
  requests_get := fun _ _ => Raise "ConnectTimeout";
  find_all_p_text := fun _ => Ret [];
  generate_content := fun _ p => Scenarios.chatty_model p
|}.

End Cases.

(** C8 as the specification words it: in a run of the search and the
    evidence loop, the sources are no more than the results and no more
    than three. *)
Definition bundle_within_cap (w : world) (claim : string) (h : trace) : Prop :=
  forall results h1 context sources h2,
    search_the_web_google w claim h = (Ret results, h1) ->
    gather w 0 results "" [] h1 = (Ret (context, sources), h2) ->
    length sources <= length results /\ length sources <= 3.

(* ===================================================================== *)
(** ** main.py: the endpoints around the pipeline

    The database connection, its cursor and the password context are
    oracles of a [server]; every call on them is appended to a [log],
    and an oracle sees the log so far.  An exception carries its class:
    [get_db_connection] catches [mysql.connector.Error] only, and the
    endpoints raise [HTTPException]. *)
(* ===================================================================== *)

Module Main.

Inductive pyexn : Type :=
| HTTPException (status_code : nat) (detail : string)
| MysqlError (msg : string)
| OtherError (msg : string).

Inductive result (A : Type) : Type :=
| Ok (a : A)
| Throw (e : pyexn).
Arguments Ok {A} a.
Arguments Throw {A} e.

(** A parameter of [cursor.execute]. *)
Inductive sql_value : Type :=
| SqlStr (s : string)
| SqlInt (n : Z).

Inductive io : Type :=
| IoConnect
| IoIsConnected
| IoCursor (dictionary : bool)
| IoExecute (sql : string) (params : list sql_value)
| IoFetchone
| IoFetchall
| IoCommit
| IoClose
| IoHash (password : string)
| IoVerify (plain_password hashed_password : string)
| IoPrint (line : string).

Definition log := list io.

Definition IO (A : Type) : Type := log -> result A * log.

Definition io_ret {A} (a : A) : IO A := fun h => (Ok a, h).

Definition throw {A} (e : pyexn) : IO A := fun h => (Throw e, h).

Definition io_bind {A B} (m : IO A) (k : A -> IO B) : IO B :=
  fun h =>
    match m h with
    | (Ok a, h') => k a h'
    | (Throw e, h') => (Throw e, h')
    end.

(** [try: body / except Error as e: handler e], for
    [mysql.connector.Error]: other exceptions pass through. *)
Definition try_except_mysql {A} (body : IO A) (handler : string -> IO A) : IO A :=
  fun h =>
    match body h with
    | (Throw (MysqlError msg), h') => handler msg h'
    | other => other
    end.

(** [try: body / finally: final].  [final] runs on every way out of
    [body]; an exception of [final] replaces the outcome of [body]. *)
Definition try_finally {A} (body : IO A) (final : IO unit) : IO A :=
  fun h =>
    match body h with
    | (outcome, h') =>
        match final h' with
        | (Ok _, h'') => (outcome, h'')
        | (Throw e, h'') => (Throw e, h'')
        end
    end.

Definition io_call {A} (ev : io) (oracle : log -> result A) : IO A :=
  fun h => (oracle h, (h ++ [ev])%list).

Definition io_print (line : string) : IO unit :=
  fun h => (Ok tt, (h ++ [IoPrint line])%list).

Declare Scope io_scope.
Delimit Scope io_scope with io.
Notation "x <- m ;; k" := (io_bind m (fun x => k))
  (at level 61, m at next level, right associativity) : io_scope.
Notation "m ;;; k" := (io_bind m (fun _ => k))
  (at level 61, right associativity) : io_scope.

(** A row of the [users] table, as a dictionary cursor returns it. *)
Record user_row : Type := {
  row_user_id : Z;
  row_username : string;
  row_password_hash : string;
  row_email : string;
  row_full_name : string;
  row_status : string
}.

(** A row of [SELECT id, input_text FROM submission]. *)
Record submission_row : Type := {
  sub_id : Z;
  sub_input_text : string
}.

Record server : Type := {
  (** [mysql.connector.connect(host=..., user=..., password=..., database=...)] *)
  mysql_connect : log -> result unit;
  (** [conn.is_connected()] *)
  is_connected : log -> result bool;
  (** [conn.cursor(...)] *)
  conn_cursor : log -> result unit;
  (** [cursor.execute(sql, params)] *)
  cursor_execute : log -> string -> list sql_value -> result unit;
  (** [cursor.fetchone()] on the [users] table *)
  cursor_fetchone : log -> result (option user_row);
  (** [cursor.fetchall()] on the [submission] table *)
  cursor_fetchall : log -> result (list submission_row);
  (** [cursor.lastrowid] *)
  cursor_lastrowid : log -> Z;
  (** [conn.commit()] *)
  conn_commit : log -> result unit;
  (** [conn.close()] *)
  conn_close : log -> result unit;
  (** [pwd_context.hash(password)] *)
  pwd_hash : log -> string -> result string;
  (** [pwd_context.verify(plain_password, hashed_password)] *)
  pwd_verify : log -> string -> string -> result bool
}.

(** The pydantic models. *)
Record UserRegister : Type := {
  reg_username : string;
  reg_password : string;
  reg_email : string;
  reg_full_name : string
}.

Record UserLogin : Type := {
  login_username : string;
  login_password : string
}.

Record ChatPart : Type := { part_text : string }.

Record ChatMessage : Type := {
  role : string;
  parts : list ChatPart
}.

Record ChatRequest : Type := {
  message : string;
  chatHistory : list ChatMessage
}.

(** The ["user"] entry of a successful login. *)
Record user_public : Type := {
  pub_id : Z;
  pub_username : string;
  pub_email : string;
  pub_full_name : string;
  pub_status : string
}.

(** What an endpoint returns. *)
Inductive reply : Type :=
| JSONResponse (status_code : nat) (detail : string)
| Registered (message : string)
| LoggedIn (message : string) (user : user_public)
| History (history : list submission_row)
| Saved (message : string) (id : Z)
| Chat (text : string).

(** U+274C, as it is written to a UTF-8 stdout. *)
Definition cross_mark : string :=
  String "226"%char (String "157"%char (String "140"%char "")).

Definition SELECT_BY_NAME_OR_EMAIL : string :=
  "SELECT * FROM users WHERE username = %s OR email = %s".
Definition INSERT_USER : string :=
  "INSERT INTO users (username, password_hash, email, full_name, status) VALUES (%s, %s, %s, %s, %s)".
Definition SELECT_BY_NAME : string :=
  "SELECT * FROM users WHERE username = %s".
Definition SELECT_SUBMISSIONS : string :=
  "SELECT id, input_text FROM submission WHERE user_id = %s ORDER BY id DESC".
Definition INSERT_SUBMISSION : string :=
  "INSERT INTO submission (user_id, input_text) VALUES (%s, %s)".
Definition DB_FAILED : string := "Database connection failed.".

Section Endpoints.

Variable s : server.

Local Open Scope io_scope.

(** [get_db_connection()]; [None] is Python's [None]. *)
Definition get_db_connection : IO (option unit) :=
  try_except_mysql
    (io_call IoConnect (mysql_connect s) ;;;
     connected <- io_call IoIsConnected (is_connected s) ;;
     if (connected : bool) then io_ret (Some tt) else io_ret None)
    (fun e => io_print (cross_mark ++ " DB connection error: " ++ e) ;;; io_ret None).

(** [verify_password(plain_password, hashed_password)] *)
Definition verify_password (plain_password hashed_password : string) : IO bool :=
  io_call (IoVerify plain_password hashed_password)
          (fun h => pwd_verify s h plain_password hashed_password).

(** [hash_password(password)] *)
Definition hash_password (password : string) : IO string :=
  io_call (IoHash password) (fun h => pwd_hash s h password).

Definition execute (sql : string) (params : list sql_value) : IO unit :=
  io_call (IoExecute sql params) (fun h => cursor_execute s h sql params).

(** [register_user(user)] *)
Definition register_user (user : UserRegister) : IO reply :=
  conn <- get_db_connection ;;
  match conn with
  | None => io_ret (JSONResponse 500 DB_FAILED)
  | Some _ =>
      try_finally
        (io_call (IoCursor false) (conn_cursor s) ;;;
         execute SELECT_BY_NAME_OR_EMAIL
                 [SqlStr (reg_username user); SqlStr (reg_email user)] ;;;
         found <- io_call IoFetchone (cursor_fetchone s) ;;
         match found with
         | Some _ => io_ret (JSONResponse 400 "Username or email already exists.")
         | None =>
             hashed_pw <- hash_password (reg_password user) ;;
             execute INSERT_USER
                     [SqlStr (reg_username user); SqlStr hashed_pw; SqlStr (reg_email user);
                      SqlStr (reg_full_name user); SqlStr "active"] ;;;
             io_call IoCommit (conn_commit s) ;;;
             io_ret (Registered ("User '" ++ reg_username user ++ "' registered successfully."))
         end)
        (io_call IoClose (conn_close s))
  end.

(** [login_user(user)] *)
Definition login_user (user : UserLogin) : IO reply :=
  conn <- get_db_connection ;;
  match conn with
  | None => throw (HTTPException 500 DB_FAILED)
  | Some _ =>
      io_call (IoCursor true) (conn_cursor s) ;;;
      execute SELECT_BY_NAME [SqlStr (login_username user)] ;;;
      db_user <- io_call IoFetchone (cursor_fetchone s) ;;
      io_call IoClose (conn_close s) ;;;
      match db_user with
      | None => throw (HTTPException 401 "Invalid username or password.")
      | Some row =>
          verified <- verify_password (login_password user) (row_password_hash row) ;;
          if negb verified
          then throw (HTTPException 401 "Invalid username or password.")
          else if negb (String.eqb (row_status row) "active")
          then throw (HTTPException 403 "User account is inactive.")
          else io_ret (LoggedIn "Login successful!"
                         {| pub_id := row_user_id row;
                            pub_username := row_username row;
                            pub_email := row_email row;
                            pub_full_name := row_full_name row;
                            pub_status := row_status row |})
      end
  end.

(** [get_chat_history(user_id)] *)
Definition get_chat_history (user_id : Z) : IO reply :=
  conn <- get_db_connection ;;
  match conn with
  | None => throw (HTTPException 500 DB_FAILED)
  | Some _ =>
      io_call (IoCursor true) (conn_cursor s) ;;;
      execute SELECT_SUBMISSIONS [SqlInt user_id] ;;;
      submissions <- io_call IoFetchall (cursor_fetchall s) ;;
      io_call IoClose (conn_close s) ;;;
      io_ret (History submissions)
  end.

(** [save_chat(user_id, input_text)] *)
Definition save_chat (user_id : Z) (input_text : string) : IO reply :=
  conn <- get_db_connection ;;
  match conn with
  | None => throw (HTTPException 500 DB_FAILED)
  | Some _ =>
      try_finally
        (io_call (IoCursor false) (conn_cursor s) ;;;
         execute INSERT_SUBMISSION [SqlInt user_id; SqlStr input_text] ;;;
         io_call IoCommit (conn_commit s) ;;;
         (fun h => (Ok (Saved "Chat saved successfully" (cursor_lastrowid s h)), h)))
        (io_call IoClose (conn_close s))
  end.

End Endpoints.

(** [handle_chat(request)]: the pipeline, on the message alone. *)
Definition handle_chat (w : world) (request : ChatRequest) : M reply :=
  bind (freaksearch_handler w (Some (message request)) None)
       (fun final_response => ret (Chat final_response)).

Definition is_close (e : io) : bool :=
  match e with IoClose => true | _ => false end.
Definition is_execute (e : io) : bool :=
  match e with IoExecute _ _ => true | _ => false end.
Definition is_verify (e : io) : bool :=
  match e with IoVerify _ _ => true | _ => false end.
Definition is_db_work (e : io) : bool :=
  match e with
  | IoCursor _ | IoExecute _ _ | IoFetchone | IoFetchall | IoCommit | IoClose => true
  | _ => false
  end.

Definition count (p : io -> bool) (h : log) : nat := length (filter p h).

(** [emits m allowed]: whether [m] returns or raises, all it does is
    append events that [allowed] admits. *)
Definition emits {A} (m : IO A) (allowed : io -> bool) : Prop :=
  forall h, exists evs, snd (m h) = (h ++ evs)%list /\ forallb allowed evs = true.

(** The connection cannot be had: [connect] raises a MySQL error, or the
    connection it returns is not connected. *)
Definition database_down (s : server) (h : log) : Prop :=
  match mysql_connect s h with
  | Throw (MysqlError _) => True
  | Throw _ => False
  | Ok _ =>
      match is_connected s (h ++ [IoConnect])%list with
      | Ok connected => connected = false
      | Throw (MysqlError _) => True
      | Throw _ => False
      end
  end.

(** A database whose every call succeeds, with one registered user. *)
Definition alice : user_row := {|
  row_user_id := 7%Z;
  row_username := "alice";
  row_password_hash := "$2b$12$hash-of-wonderland";
  row_email := "alice@example.org";
  row_full_name := "Alice L.";
  row_status := "active"
|}.

Definition healthy : server := {|
  mysql_connect := fun _ => Ok tt;
  is_connected := fun _ => Ok true;
  conn_cursor := fun _ => Ok tt;
  cursor_execute := fun _ _ _ => Ok tt;
  cursor_fetchone := fun h =>
    if existsb (fun e => match e with
                         | IoExecute _ (SqlStr "alice" :: _) => true
                         | _ => false
                         end) h
    then Ok (Some alice) else Ok None;
  cursor_fetchall := fun _ =>
    Ok [ {| sub_id := 2%Z; sub_input_text := "The moon landing was faked" |};
         {| sub_id := 1%Z; sub_input_text := "hello" |} ];
  cursor_lastrowid := fun _ => 3%Z;
  conn_commit := fun _ => Ok tt;
  conn_close := fun _ => Ok tt;
  pwd_hash := fun _ p => Ok ("$2b$12$hash-of-" ++ p);
  pwd_verify := fun _ p hsh => Ok (String.eqb ("$2b$12$hash-of-" ++ p) hsh)
|}.

(** The connection opens, then the server goes away: every query fails. *)
Definition gone_away : server := {|
  mysql_connect := fun _ => Ok tt;
  is_connected := fun _ => Ok true;
  conn_cursor := fun _ => Ok tt;
  cursor_execute := fun _ _ _ => Throw (MysqlError "2006: MySQL server has gone away");
  cursor_fetchone := fun _ => Throw (MysqlError "2006: MySQL server has gone away");
  cursor_fetchall := fun _ => Throw (MysqlError "2006: MySQL server has gone away");
  cursor_lastrowid := fun _ => 0%Z;
  conn_commit := fun _ => Throw (MysqlError "2006: MySQL server has gone away");
  conn_close := fun _ => Ok tt;
  pwd_hash := fun _ p => Ok ("$2b$12$hash-of-" ++ p);
  pwd_verify := fun _ p hsh => Ok (String.eqb ("$2b$12$hash-of-" ++ p) hsh)
|}.

(** No database to connect to. *)
Definition unreachable : server := {|
  mysql_connect := fun _ => Throw (MysqlError "2003: Can't connect to MySQL server");
  is_connected := fun _ => Ok false;
  conn_cursor := fun _ => Throw (OtherError "no connection");
  cursor_execute := fun _ _ _ => Throw (OtherError "no connection");
  cursor_fetchone := fun _ => Throw (OtherError "no connection");
  cursor_fetchall := fun _ => Throw (OtherError "no connection");
  cursor_lastrowid := fun _ => 0%Z;
  conn_commit := fun _ => Throw (OtherError "no connection");
  conn_close := fun _ => Throw (OtherError "no connection");
  pwd_hash := fun _ p => Ok ("$2b$12$hash-of-" ++ p);
  pwd_verify := fun _ p hsh => Ok (String.eqb ("$2b$12$hash-of-" ++ p) hsh)
|}.

End Main.

(* ===================================================================== *)
(** ** How each function runs *)
(* ===================================================================== *)

Lemma calls_app (p : event -> bool) (h1 h2 : trace) :
  calls p (h1 ++ h2)%list = calls p h1 + calls p h2.
Proof. unfold calls. rewrite filter_app, length_app. reflexivity. Qed.

Lemma app_two {A} (h : list A) (a b : A) : ((h ++ [a]) ++ [b] = h ++ [a; b])%list.
Proof. rewrite <- app_assoc. reflexivity. Qed.

Section Runs.

Variable w : world.

(** The three ways [search_the_web_google] can go. *)
Lemma search_run (query : string) (h : trace) :
  search_the_web_google w query h =
  if negb (truthy_str (GOOGLE_API_KEY w)) || negb (truthy_str (SEARCH_ENGINE_ID w))
  then (Ret [], h)
  else match cse_list w h query 3 with
       | Ret res => (Ret (match items res with Some l => l | None => [] end),
                     (h ++ [EvSearch query 3])%list)
       | Raise e => (Ret [], (h ++ [EvSearch query 3; EvPrint ("Google API search error: " ++ e)])%list)
       end.
Proof.
  unfold search_the_web_google.
  destruct (negb (truthy_str (GOOGLE_API_KEY w)) || negb (truthy_str (SEARCH_ENGINE_ID w)));
    [reflexivity|].
  unfold try_except, bind, call, print, ret.
  destruct (cse_list w h query 3); [reflexivity|].
  rewrite app_two. reflexivity.
Qed.

(** The three ways [scrape_url_content] can go. *)
Lemma scrape_run (url : string) (h : trace) :
  scrape_url_content w url h =
  match requests_get w h url with
  | Ret response =>
      match find_all_p_text w (content response) with
      | Ret paragraphs =>
          (Ret (PyStr.slice_to 2500 (PyStr.join " " paragraphs)), (h ++ [EvHttpGet url])%list)
      | Raise e =>
          (Ret "", (h ++ [EvHttpGet url; EvPrint ("Error scraping " ++ url ++ ": " ++ e)])%list)
      end
  | Raise e =>
      (Ret "", (h ++ [EvHttpGet url; EvPrint ("Error scraping " ++ url ++ ": " ++ e)])%list)
  end.
Proof.
  unfold scrape_url_content, try_except, bind, call, print, ret.
  destruct (requests_get w h url) as [response|e].
  - destruct (find_all_p_text w (content response)); [reflexivity|].
    rewrite app_two. reflexivity.
  - rewrite app_two. reflexivity.
Qed.

(** The three ways [get_text_from_image] can go. *)
Lemma get_text_run (image_bytes : bytes) (h : trace) :
  get_text_from_image w image_bytes h =
  match Image_open w h image_bytes with
  | Ret image =>
      match image_to_string w (h ++ [EvImageOpen image_bytes])%list image with
      | Ret text =>
          (Ret (Some (PyStr.strip text)), (h ++ [EvImageOpen image_bytes; EvOcr image])%list)
      | Raise e =>
          (Ret None,
           (h ++ [EvImageOpen image_bytes; EvOcr image; EvPrint ("OCR error: " ++ e)])%list)
      end
  | Raise e => (Ret None, (h ++ [EvImageOpen image_bytes; EvPrint ("OCR error: " ++ e)])%list)
  end.
Proof.
  unfold get_text_from_image, try_except, bind, call, print, ret.
  destruct (Image_open w h image_bytes) as [image|e].
  - destruct (image_to_string w (h ++ [EvImageOpen image_bytes])%list image).
    + rewrite app_two. reflexivity.
    + rewrite !app_two, <- app_assoc. reflexivity.
  - rewrite app_two. reflexivity.
Qed.

(** The ways [recognize_intent] can go. *)
Lemma recognize_run (user_input : string) (h : trace) :
  recognize_intent w user_input h =
  if existsb (String.eqb (PyStr.lower (PyStr.strip user_input))) greetings
  then (Ret greeting, h)
  else if negb (truthy_str (GEMINI_API_KEY w))
  then (Ret fact_checking_claim, h)
  else match generate_content w h (intent_prompt user_input) with
       | Ret response =>
           (Ret (if PyStr.contains "fact_checking_claim" (normalize_label response)
                 then fact_checking_claim else general_question),
            (h ++ [EvGenerate (intent_prompt user_input)])%list)
       | Raise e =>
           (Ret fact_checking_claim,
            (h ++ [EvGenerate (intent_prompt user_input);
                   EvPrint ("Intent recognition error: " ++ e)])%list)
       end.
Proof.
  unfold recognize_intent.
  destruct (existsb _ greetings); [reflexivity|].
  destruct (negb (truthy_str (GEMINI_API_KEY w))); [reflexivity|].
  unfold try_except, bind, call, print, ret.
  destruct (generate_content w h (intent_prompt user_input)); [reflexivity|].
  rewrite app_two. reflexivity.
Qed.

Lemma search_appends (query : string) :
  appends (search_the_web_google w query)
          (fun e => negb (is_fetch e) && negb (is_generate e)).
Proof.
  intro h. rewrite search_run.
  destruct (negb (truthy_str (GOOGLE_API_KEY w)) || negb (truthy_str (SEARCH_ENGINE_ID w))).
  - exists [], []. rewrite app_nil_r. split; reflexivity.
  - destruct (cse_list w h query 3); eexists; eexists; split; reflexivity.
Qed.

Lemma scrape_appends (url : string) :
  appends (scrape_url_content w url)
          (fun e => negb (is_search e) && negb (is_generate e)).
Proof.
  intro h. rewrite scrape_run.
  destruct (requests_get w h url) as [response|e];
    [destruct (find_all_p_text w (content response))|];
    eexists; eexists; split; reflexivity.
Qed.

Lemma get_text_appends (image_bytes : bytes) :
  appends (get_text_from_image w image_bytes)
          (fun e => negb (is_search e) && negb (is_fetch e) && negb (is_generate e)).
Proof.
  intro h. rewrite get_text_run.
  destruct (Image_open w h image_bytes) as [image|e];
    [destruct (image_to_string w (h ++ [EvImageOpen image_bytes])%list image)|];
    eexists; eexists; split; reflexivity.
Qed.

Lemma recognize_appends (user_input : string) :
  appends (recognize_intent w user_input)
          (fun e => negb (is_search e) && negb (is_fetch e)).
Proof.
  intro h. rewrite recognize_run.
  destruct (existsb _ greetings).
  { exists greeting, []. rewrite app_nil_r. split; reflexivity. }
  destruct (negb (truthy_str (GEMINI_API_KEY w))).
  { exists fact_checking_claim, []. rewrite app_nil_r. split; reflexivity. }
  destruct (generate_content w h (intent_prompt user_input));
    eexists; eexists; split; reflexivity.
Qed.

End Runs.

Section Composition.

Context {A B : Type}.

Lemma appends_ret (a : A) (p : event -> bool) : appends (ret a) p.
Proof. intro h. exists a, []. rewrite app_nil_r. split; reflexivity. Qed.

Lemma appends_bind (m : M A) (k : A -> M B) (p : event -> bool) :
  appends m p -> (forall a, appends (k a) p) -> appends (bind m k) p.
Proof.
  intros Hm Hk h. unfold bind.
  destruct (Hm h) as (a & evs & -> & Hevs).
  destruct (Hk a (h ++ evs)%list) as (b & evs' & -> & Hevs').
  exists b, (evs ++ evs')%list. rewrite app_assoc. split; [reflexivity|].
  rewrite forallb_app, Hevs, Hevs'. reflexivity.
Qed.

Lemma appends_weaken (m : M A) (p q : event -> bool) :
  (forall e, p e = true -> q e = true) -> appends m p -> appends m q.
Proof.
  intros Hpq Hm h. destruct (Hm h) as (a & evs & -> & Hevs).
  exists a, evs. split; [reflexivity|].
  rewrite forallb_forall in *. auto.
Qed.

End Composition.

Lemma forallb_calls_zero (p q : event -> bool) (evs : trace) :
  (forall e, p e = true -> q e = false) ->
  forallb p evs = true -> calls q evs = 0.
Proof.
  intros Hpq Hall. unfold calls. induction evs as [|e evs IH]; [reflexivity|].
  simpl in *. apply andb_true_iff in Hall as [He Hall].
  rewrite (Hpq e He). auto.
Qed.

Section Loop.

Variable w : world.

(** One turn of the loop of [verify_misinformation]. *)
Lemma gather_cons (i : nat) (result : search_item) (rest : list search_item)
    (context : string) (sources : list string) (h : trace) :
  gather w i (result :: rest) context sources h =
  if truthy_str (link result)
  then
    let url := PyStr.of_opt (link result) in
    match scrape_url_content w url h with
    | (Ret body, h') =>
        gather w (S i) rest (context ++ source_entry i result url body)
               (sources ++ [url])%list h'
    | (Raise e, h') => (Raise e, h')
    end
  else gather w (S i) rest context sources h.
Proof. simpl. destruct (truthy_str (link result)); reflexivity. Qed.

(** A scrape makes exactly one fetch, and no search or model call. *)
Lemma scrape_calls (url : string) (h : trace) :
  exists body evs,
    scrape_url_content w url h = (Ret body, (h ++ evs)%list) /\
    calls is_fetch evs = 1 /\ calls is_search evs = 0 /\ calls is_generate evs = 0.
Proof.
  rewrite scrape_run.
  destruct (requests_get w h url) as [response|e];
    [destruct (find_all_p_text w (content response))|];
    eexists; eexists; repeat split.
Qed.

(** The loop runs to its end whatever the fetches do: it keeps the
    links of all results that have one, and makes one fetch for each. *)
Lemma gather_run (search_results : list search_item) :
  forall (i : nat) (context : string) (sources : list string) (h : trace),
  exists context' evs,
    gather w i search_results context sources h =
      (Ret (context', (sources ++ usable_links search_results)%list), (h ++ evs)%list) /\
    calls is_fetch evs = length (usable_links search_results) /\
    calls is_search evs = 0 /\ calls is_generate evs = 0.
Proof.
  induction search_results as [|r rest IH]; intros i context sources h.
  - exists context, []. simpl. unfold ret. rewrite !app_nil_r. auto.
  - rewrite gather_cons. simpl usable_links.
    destruct (truthy_str (link r)).
    + cbv zeta.
      destruct (scrape_calls (PyStr.of_opt (link r)) h) as (body & evs & -> & Hf1 & Hs1 & Hg1).
      destruct (IH (S i) (context ++ source_entry i r (PyStr.of_opt (link r)) body)
                   (sources ++ [PyStr.of_opt (link r)])%list (h ++ evs)%list)
        as (context' & evs' & -> & Hf & Hs & Hg).
      exists context', (evs ++ evs')%list.
      rewrite <- !app_assoc. split; [reflexivity|].
      rewrite !calls_app, Hf, Hs, Hg, Hf1, Hs1, Hg1. auto.
    + apply IH.
Qed.

Lemma usable_links_length (search_results : list search_item) :
  length (usable_links search_results) <= length search_results.
Proof.
  induction search_results as [|r rest IH]; simpl; [lia|].
  destruct (truthy_str (link r)); simpl; lia.
Qed.

(** How [verify_misinformation] runs. *)
Lemma verify_run (claim : string) (h : trace) :
  verify_misinformation w claim h =
  match search_the_web_google w claim h with
  | (Ret [], h1) => (Ret MSG_NO_RESULTS, h1)
  | (Ret (r :: rs), h1) =>
      match gather w 0 (r :: rs) "" [] h1 with
      | (Ret (context, sources), h2) =>
          if negb (truthy_str (GEMINI_API_KEY w))
          then (Ret MSG_NO_GEMINI, h2)
          else match generate_content w h2 (verdict_prompt claim context sources) with
               | Ret text =>
                   (Ret text, (h2 ++ [EvGenerate (verdict_prompt claim context sources)])%list)
               | Raise e =>
                   (Ret ("Gemini analysis error: " ++ e),
                    (h2 ++ [EvGenerate (verdict_prompt claim context sources)])%list)
               end
      | (Raise e, h2) => (Raise e, h2)
      end
  | (Raise e, h1) => (Raise e, h1)
  end.
Proof.
  unfold verify_misinformation, bind at 1.
  destruct (search_the_web_google w claim h) as [[[|r rs]|e] h1]; try reflexivity.
  unfold bind.
  destruct (gather w 0 (r :: rs) "" [] h1) as [[[context sources]|e] h2]; [|reflexivity].
  destruct (negb (truthy_str (GEMINI_API_KEY w))); [reflexivity|].
  unfold try_except, call, ret.
  destruct (generate_content w h2 (verdict_prompt claim context sources)); reflexivity.
Qed.

Lemma verify_appends (claim : string) :
  appends (verify_misinformation w claim) (fun _ => true).
Proof.
  intro h. rewrite verify_run.
  destruct (search_appends w claim h) as (rs & evs & -> & _).
  destruct rs as [|r rs].
  { exists MSG_NO_RESULTS, evs. split; [reflexivity|]. apply forallb_forall. auto. }
  destruct (gather_run (r :: rs) 0 "" [] (h ++ evs)%list) as (context & evs' & -> & _).
  assert (Hall : forall l : trace, forallb (fun _ => true) l = true)
    by (intro l; apply forallb_forall; auto).
  destruct (negb (truthy_str (GEMINI_API_KEY w))).
  { exists MSG_NO_GEMINI, (evs ++ evs')%list. rewrite app_assoc. auto. }
  destruct (generate_content w _ _);
    eexists; eexists; rewrite <- !app_assoc; split; [reflexivity|apply Hall|reflexivity|apply Hall].
Qed.

Lemma respond_appends (text : option string) :
  appends (respond w text) (fun _ => true).
Proof.
  destruct text as [[|c r]|]; simpl; try apply appends_ret.
  apply appends_bind.
  - eapply appends_weaken; [|apply recognize_appends]. auto.
  - intros []; try apply appends_ret. apply verify_appends.
Qed.

Lemma handler_appends (user_input : option string) (image_bytes : option bytes) :
  appends (freaksearch_handler w user_input image_bytes) (fun _ => true).
Proof.
  unfold freaksearch_handler.
  destruct (truthy_bytes image_bytes); [|apply respond_appends].
  apply appends_bind.
  - eapply appends_weaken; [|apply get_text_appends]. auto.
  - intro text. destruct (negb (truthy_str text)); [apply appends_ret|apply respond_appends].
Qed.

End Loop.

(* ===================================================================== *)
(** ** Facts about the string helpers *)
(* ===================================================================== *)

Lemma prefix_split (p s : string) :
  prefix p s = true <-> exists rest, s = p ++ rest.
Proof.
  revert s. induction p as [|c p IH]; intro s.
  - split; [intros _; exists s; reflexivity|intros _; destruct s; reflexivity].
  - destruct s as [|d s]; simpl.
    + split; [discriminate|intros [rest H]; discriminate].
    + destruct (ascii_dec c d) as [->|Hcd].
      * rewrite IH. split; intros [rest H]; exists rest; congruence.
      * split; [discriminate|intros [rest H]; congruence].
Qed.

(** [contains] decides "[needle] occurs somewhere in [hay]". *)
Lemma contains_split (needle hay : string) :
  PyStr.contains needle hay = true <-> exists a b, hay = a ++ needle ++ b.
Proof.
  induction hay as [|c hay IH].
  - cbn [PyStr.contains]. rewrite orb_false_r, prefix_split. split.
    + intros [rest H]. exists "", rest. exact H.
    + intros (a & b & H). destruct a; [exists b; exact H|discriminate].
  - cbn [PyStr.contains]. rewrite orb_true_iff, prefix_split, IH. split.
    + intros [[rest H]|(a & b & H)].
      * exists "", rest. exact H.
      * exists (String c a), b. simpl. congruence.
    + intros (a & b & H). destruct a as [|d a].
      * left. exists b. exact H.
      * right. exists a, b. simpl in H. congruence.
Qed.

(** [s[:n]] is the first [min n (len s)] characters of [s]. *)
Lemma slice_to_prefix (n : nat) (s : string) :
  exists rest, s = PyStr.slice_to n s ++ rest.
Proof.
  unfold PyStr.slice_to. revert s. induction n as [|n IH]; intro s.
  - exists s. destruct s; reflexivity.
  - destruct s as [|c s]; [exists ""; reflexivity|].
    destruct (IH s) as [rest H]. exists rest. simpl. congruence.
Qed.

Lemma slice_to_length (n : nat) (s : string) :
  String.length (PyStr.slice_to n s) = Nat.min n (String.length s).
Proof.
  unfold PyStr.slice_to. revert s. induction n as [|n IH]; intro s.
  - destruct s; reflexivity.
  - destruct s as [|c s]; [reflexivity|]. simpl. rewrite IH. reflexivity.
Qed.

Lemma greetings_decide (s : string) :
  existsb (String.eqb s) greetings = true <-> In s greetings.
Proof.
  rewrite existsb_exists. split.
  - intros (g & Hin & Heq). apply String.eqb_eq in Heq. subst. exact Hin.
  - intro Hin. exists s. split; [exact Hin|apply String.eqb_refl].
Qed.

(** No greeting literal is blank, so a greeting input is never empty. *)
Lemma greeting_not_empty (text : string) :
  In (PyStr.lower (PyStr.strip text)) greetings -> text <> "".
Proof.
  intros Hin ->. simpl in Hin. intuition discriminate.
Qed.

Section Calls.

Variable w : world.

(** OCR makes no search, fetch or model call. *)
Lemma get_text_calls (image_bytes : bytes) (h : trace) :
  exists text evs,
    get_text_from_image w image_bytes h = (Ret text, (h ++ evs)%list) /\
    calls is_search evs = 0 /\ calls is_fetch evs = 0 /\ calls is_generate evs = 0.
Proof.
  rewrite get_text_run.
  destruct (Image_open w h image_bytes) as [image|e];
    [destruct (image_to_string w (h ++ [EvImageOpen image_bytes])%list image)|];
    eexists; eexists; repeat split.
Qed.

(** Classification makes at most one model call and nothing else. *)
Lemma recognize_calls (user_input : string) (h : trace) :
  exists intent evs,
    recognize_intent w user_input h = (Ret intent, (h ++ evs)%list) /\
    calls is_search evs = 0 /\ calls is_fetch evs = 0 /\ calls is_generate evs <= 1.
Proof.
  rewrite recognize_run.
  destruct (existsb _ greetings).
  { exists greeting, []. rewrite app_nil_r. repeat split. auto. }
  destruct (negb (truthy_str (GEMINI_API_KEY w))).
  { exists fact_checking_claim, []. rewrite app_nil_r. repeat split. auto. }
  destruct (generate_content w h (intent_prompt user_input));
    eexists; eexists; repeat split; auto.
Qed.

(** The handler with an image payload. *)
Lemma handler_with_image (user_input : option string) (b : byte) (bs : bytes) (h : trace) :
  freaksearch_handler w user_input (Some (b :: bs)) h =
  match get_text_from_image w (b :: bs) h with
  | (Ret text, h1) =>
      if negb (truthy_str text) then (Ret MSG_NO_IMAGE_TEXT, h1) else respond w text h1
  | (Raise e, h1) => (Raise e, h1)
  end.
Proof.
  unfold freaksearch_handler, bind. simpl.
  destruct (get_text_from_image w (b :: bs) h) as [[text|e] h1]; [|reflexivity].
  destruct (negb (truthy_str text)); reflexivity.
Qed.

(** A greeting is answered on the spot. *)
Lemma respond_greeting (text : string) (h : trace) :
  In (PyStr.lower (PyStr.strip text)) greetings ->
  respond w (Some text) h = (Ret MSG_GREETING, h).
Proof.
  intro Hin. pose proof (greeting_not_empty text Hin) as Hne.
  destruct text as [|c r]; [congruence|].
  unfold respond, bind. rewrite recognize_run.
  apply greetings_decide in Hin. rewrite Hin. reflexivity.
Qed.

End Calls.

(* ===================================================================== *)
(** ** Properties of the pipeline *)
(* ===================================================================== *)

(** C1.  Whatever the user sends and however the OCR engine, the search
    provider, a fetched site or the language model fail, each stage
    returns normally and [freaksearch_handler] answers with a string:
    no exception leaves the handler. *)
Theorem handler_always_answers (w : world) (user_input : option string)
    (image_bytes : option bytes) (h : trace) :
  (exists answer evs,
     freaksearch_handler w user_input image_bytes h = (Ret answer, (h ++ evs)%list)) /\
  (forall b, exists text h', get_text_from_image w b h = (Ret text, h')) /\
  (forall text, exists intent h', recognize_intent w text h = (Ret intent, h')) /\
  (forall query, exists results h', search_the_web_google w query h = (Ret results, h')) /\
  (forall url, exists body h', scrape_url_content w url h = (Ret body, h')) /\
  (forall claim, exists answer h', verify_misinformation w claim h = (Ret answer, h')).
Proof.
  split; [|split; [|split; [|split; [|split]]]].
  - destruct (handler_appends w user_input image_bytes h) as (answer & evs & H & _). eauto.
  - intro b. destruct (get_text_appends w b h) as (a & evs & H & _). eauto.
  - intro text. destruct (recognize_appends w text h) as (a & evs & H & _). eauto.
  - intro query. destruct (search_appends w query h) as (a & evs & H & _). eauto.
  - intro url. destruct (scrape_appends w url h) as (a & evs & H & _). eauto.
  - intro claim. destruct (verify_appends w claim h) as (a & evs & H & _). eauto.
Qed.

(** C3.  When the search API key or the search-engine identifier is not
    configured, [search_the_web_google] returns the empty list without
    touching the trace (no network call), [verify_misinformation]
    returns the fixed "could not fetch search results" message without
    any call at all, so a text classified as a claim is answered with
    that message, and a whole handler run makes no search, no fetch and
    no model call beyond the one of intent classification. *)
Theorem no_search_credentials (w : world)
    (Hmissing : truthy_str (GOOGLE_API_KEY w) = false \/
                truthy_str (SEARCH_ENGINE_ID w) = false) :
  (forall query h, search_the_web_google w query h = (Ret [], h)) /\
  (forall claim h, verify_misinformation w claim h = (Ret MSG_NO_RESULTS, h)) /\
  (forall c r h,
     respond w (Some (String c r)) h =
     match recognize_intent w (String c r) h with
     | (Ret greeting, h1) => (Ret MSG_GREETING, h1)
     | (Ret fact_checking_claim, h1) => (Ret MSG_NO_RESULTS, h1)
     | (Ret general_question, h1) => (Ret MSG_ONLY_CLAIMS, h1)
     | (Raise e, h1) => (Raise e, h1)
     end) /\
  (forall user_input image_bytes h, exists answer evs,
     freaksearch_handler w user_input image_bytes h = (Ret answer, (h ++ evs)%list) /\
     calls is_search evs = 0 /\ calls is_fetch evs = 0 /\ calls is_generate evs <= 1).
Proof.
  assert (Hsearch : forall query h, search_the_web_google w query h = (Ret [], h)).
  { intros query h. rewrite search_run.
    destruct Hmissing as [-> | ->]; [reflexivity|]. rewrite orb_true_r. reflexivity. }
  assert (Hverify : forall claim h, verify_misinformation w claim h = (Ret MSG_NO_RESULTS, h)).
  { intros claim h. rewrite verify_run, Hsearch. reflexivity. }
  assert (Hrespond : forall text h, exists answer evs,
             respond w text h = (Ret answer, (h ++ evs)%list) /\
             calls is_search evs = 0 /\ calls is_fetch evs = 0 /\ calls is_generate evs <= 1).
  { assert (Hnone : forall h, exists answer evs,
               ret MSG_NO_INPUT h = (Ret answer, (h ++ evs)%list) /\
               calls is_search evs = 0 /\ calls is_fetch evs = 0 /\ calls is_generate evs <= 1).
    { intro h. exists MSG_NO_INPUT, []. unfold ret. rewrite app_nil_r. repeat split. auto. }
    intros [[|c r]|] h; simpl; [apply Hnone| |apply Hnone].
    unfold bind.
    destruct (recognize_calls w (String c r) h) as (intent & evs & -> & Hs & Hf & Hg).
    destruct intent; [|rewrite Hverify|]; unfold ret;
      eexists; exists evs; repeat split; auto. }
  repeat split; try assumption.
  - intros c r h. unfold respond, bind.
    destruct (recognize_intent w (String c r) h) as [[[]|e] h1];
      try reflexivity. apply Hverify.
  - intros user_input image_bytes h. unfold freaksearch_handler.
    destruct (truthy_bytes image_bytes); [|apply Hrespond].
    unfold bind.
    destruct (get_text_calls w (match image_bytes with Some b => b | None => [] end) h)
      as (text & evs & -> & Hs & Hf & Hg).
    destruct (negb (truthy_str text)).
    + exists MSG_NO_IMAGE_TEXT, evs. unfold ret. rewrite Hg. auto.
    + destruct (Hrespond text (h ++ evs)%list) as (answer & evs' & -> & Hs' & Hf' & Hg').
      exists answer, (evs ++ evs')%list.
      rewrite <- app_assoc, !calls_app, Hs, Hf, Hg, Hs', Hf'. auto.
Qed.

(** Witness of C3: the [offline] world has no search credentials. *)
Lemma no_search_credentials_offline :
  (truthy_str (GOOGLE_API_KEY Scenarios.offline) = false \/
   truthy_str (SEARCH_ENGINE_ID Scenarios.offline) = false) /\
  search_the_web_google Scenarios.offline "The moon landing was faked" [] = (Ret [], []) /\
  verify_misinformation Scenarios.offline "The moon landing was faked" [] =
    (Ret MSG_NO_RESULTS, []).
Proof.
  assert (H : truthy_str (GOOGLE_API_KEY Scenarios.offline) = false \/
              truthy_str (SEARCH_ENGINE_ID Scenarios.offline) = false)
    by (left; reflexivity).
  split; [exact H|].
  split.
  - apply (proj1 (no_search_credentials Scenarios.offline H)).
  - apply (proj1 (proj2 (no_search_credentials Scenarios.offline H))).
Defined.

(** C6.  A text whose trimmed, lowercased form is one of the greeting
    literals is classified [greeting] with the trace untouched (no model
    or network call); the handler then answers with the fixed greeting,
    with no call at all when the text was typed, and with nothing but
    the OCR calls when it was read from an image. *)
Theorem greeting_short_circuit (w : world) (text : string)
    (Hgreet : In (PyStr.lower (PyStr.strip text)) greetings) :
  (forall h, recognize_intent w text h = (Ret greeting, h)) /\
  (forall h, freaksearch_handler w (Some text) None h = (Ret MSG_GREETING, h)) /\
  (forall h, freaksearch_handler w (Some text) (Some []) h = (Ret MSG_GREETING, h)) /\
  (forall user_input b bs h h1,
     get_text_from_image w (b :: bs) h = (Ret (Some text), h1) ->
     freaksearch_handler w user_input (Some (b :: bs)) h = (Ret MSG_GREETING, h1) /\
     calls is_search h1 = calls is_search h /\
     calls is_fetch h1 = calls is_fetch h /\
     calls is_generate h1 = calls is_generate h).
Proof.
  pose proof (greeting_not_empty text Hgreet) as Hne.
  repeat split.
  - intro h. rewrite recognize_run.
    apply greetings_decide in Hgreet. rewrite Hgreet. reflexivity.
  - intro h. apply respond_greeting. exact Hgreet.
  - intro h. apply respond_greeting. exact Hgreet.
  - rewrite handler_with_image, H.
    destruct text as [|c r]; [congruence|]. cbn [truthy_str negb].
    apply respond_greeting. exact Hgreet.
  - destruct (get_text_calls w (b :: bs) h) as (t & evs & Hrun & Hs & _).
    rewrite Hrun in H. injection H as _ <-. rewrite calls_app. lia.
  - destruct (get_text_calls w (b :: bs) h) as (t & evs & Hrun & _ & Hf & _).
    rewrite Hrun in H. injection H as _ <-. rewrite calls_app. lia.
  - destruct (get_text_calls w (b :: bs) h) as (t & evs & Hrun & _ & _ & Hg).
    rewrite Hrun in H. injection H as _ <-. rewrite calls_app. lia.
Qed.

(** Witness of C6: [" Hello "] typed into the [offline] world, and the
    word "Hello" read from an image in the [online] world. *)
Lemma greeting_short_circuit_hello :
  In (PyStr.lower (PyStr.strip " Hello ")) greetings /\
  freaksearch_handler Scenarios.offline (Some " Hello ") None [] = (Ret MSG_GREETING, []) /\
  freaksearch_handler Scenarios.online (Some "ignored") (Some Scenarios.png) [] =
    (Ret MSG_GREETING, [EvImageOpen Scenarios.png; EvOcr Scenarios.png]).
Proof.
  assert (H : In (PyStr.lower (PyStr.strip " Hello ")) greetings) by (left; reflexivity).
  split; [exact H|]. split.
  - apply (proj1 (proj2 (greeting_short_circuit Scenarios.offline " Hello " H))).
  - assert (H' : In (PyStr.lower (PyStr.strip "Hello")) greetings) by (left; reflexivity).
    apply (proj2 (proj2 (proj2 (greeting_short_circuit Scenarios.online "Hello" H')))
             (Some "ignored") x89 [x50; x4e; x47] []).
    reflexivity.
Defined.

(** C7.  For a text that is not a greeting, [recognize_intent] answers
    [fact_checking_claim] when no model key is configured (without any
    call) and when the model call raises; when the model answers, the
    intent is [fact_checking_claim] exactly when the trimmed, lowercased,
    quote-stripped answer contains "fact_checking_claim", and
    [general_question] otherwise. *)
Theorem classify_non_greeting (w : world) (text : string) (h : trace)
    (Hnot : ~ In (PyStr.lower (PyStr.strip text)) greetings) :
  (truthy_str (GEMINI_API_KEY w) = false ->
     recognize_intent w text h = (Ret fact_checking_claim, h)) /\
  (truthy_str (GEMINI_API_KEY w) = true ->
     (forall e, generate_content w h (intent_prompt text) = Raise e ->
        fst (recognize_intent w text h) = Ret fact_checking_claim) /\
     (forall response, generate_content w h (intent_prompt text) = Ret response ->
        (has_claim_label response ->
           fst (recognize_intent w text h) = Ret fact_checking_claim) /\
        (~ has_claim_label response ->
           fst (recognize_intent w text h) = Ret general_question))).
Proof.
  assert (Hg : existsb (String.eqb (PyStr.lower (PyStr.strip text))) greetings = false).
  { destruct (existsb _ greetings) eqn:E; [|reflexivity].
    apply greetings_decide in E. contradiction. }
  rewrite recognize_run, Hg.
  split; intro Hkey; rewrite Hkey; cbn [negb]; [reflexivity|].
  split.
  - intros e ->. reflexivity.
  - intros response ->. cbn [fst]. unfold has_claim_label.
    rewrite <- contains_split.
    destruct (PyStr.contains "fact_checking_claim" (normalize_label response));
      split; intro H; congruence.
Qed.

(** Witness of C7: a claim typed into the [online] world, whose model
    answers with the quoted, capitalised label. *)
Lemma classify_non_greeting_moon :
  ~ In (PyStr.lower (PyStr.strip "The moon landing was faked")) greetings /\
  fst (recognize_intent Scenarios.online "The moon landing was faked" []) =
    Ret fact_checking_claim /\
  recognize_intent Scenarios.offline "The moon landing was faked" [] =
    (Ret fact_checking_claim, []).
Proof.
  assert (H : ~ In (PyStr.lower (PyStr.strip "The moon landing was faked")) greetings).
  { simpl. intuition discriminate. }
  split; [exact H|]. split.
  - refine (proj1 (proj2 (proj2 (classify_non_greeting Scenarios.online _ [] H) eq_refl)
                     _ eq_refl) _).
    exists "", "". reflexivity.
  - exact (proj1 (classify_non_greeting Scenarios.offline _ [] H) eq_refl).
Defined.

(** C9.  When the request returns a response and the page parses,
    [scrape_url_content] returns the texts of the page's [p] elements
    joined by single spaces and cut to the first 2500 characters: the
    body is a prefix of the joined text, of length
    [min 2500 (len joined)]. *)
Theorem scrape_success (w : world) (url : string) (h : trace)
    (response : http_response) (paragraphs : list string)
    (Hget : requests_get w h url = Ret response)
    (Hparse : find_all_p_text w (content response) = Ret paragraphs) :
  exists body,
    scrape_url_content w url h = (Ret body, (h ++ [EvHttpGet url])%list) /\
    body = PyStr.slice_to 2500 (String.concat " " paragraphs) /\
    String.length body = Nat.min 2500 (String.length (String.concat " " paragraphs)) /\
    String.length body <= 2500 /\
    exists rest, String.concat " " paragraphs = body ++ rest.
Proof.
  exists (PyStr.slice_to 2500 (String.concat " " paragraphs)).
  rewrite scrape_run, Hget, Hparse. unfold PyStr.join.
  split; [reflexivity|]. split; [reflexivity|].
  rewrite slice_to_length. split; [reflexivity|]. split; [apply Nat.le_min_l|].
  apply slice_to_prefix.
Qed.

(** Witness of C9: the Apollo page of the [online] world. *)
Lemma scrape_success_apollo :
  requests_get Scenarios.online [] "https://a.example/apollo" =
    Ret {| status_code := 200; content := Scenarios.page "<p>Eagle</p><p>landed</p>" |} /\
  find_all_p_text Scenarios.online (Scenarios.page "<p>Eagle</p><p>landed</p>") =
    Ret ["Eagle"; "landed"] /\
  exists body,
    scrape_url_content Scenarios.online "https://a.example/apollo" [] =
      (Ret body, [EvHttpGet "https://a.example/apollo"]) /\
    body = "Eagle landed".
Proof.
  split; [reflexivity|]. split; [reflexivity|].
  destruct (scrape_success Scenarios.online "https://a.example/apollo" []
              {| status_code := 200; content := Scenarios.page "<p>Eagle</p><p>landed</p>" |}
              ["Eagle"; "landed"] eq_refl eq_refl) as (body & Hrun & Hbody & _).
  exists body. split; [exact Hrun|]. rewrite Hbody. reflexivity.
Defined.

(** Counterexample of C2: in the [linkless] world the search returns an
    entry that has no link, the bundle stays empty, and the guard of
    [verify_misinformation], which looks at the search results and not
    at the bundle, lets the analysis prompt go to the model. *)
Lemma empty_bundle_still_analysed :
  ~ empty_bundle_is_diagnosed Scenarios.linkless "The moon landing was faked" [].
Proof.
  intro H.
  destruct (H [ {| title := Some "Untitled"; link := None; snippet := None |} ]
              [EvSearch "The moon landing was faked" 3] ""
              [EvSearch "The moon landing was faked" 3] eq_refl eq_refl)
    as (h' & Hrun & _).
  discriminate Hrun.
Qed.

(** C2, amended.  When the search returns no results,
    [verify_misinformation] returns the fixed "could not fetch search
    results" message and makes no model call and no fetch. *)
Theorem no_results_no_model_call (w : world) (claim : string) (h h1 : trace)
    (Hempty : search_the_web_google w claim h = (Ret [], h1)) :
  verify_misinformation w claim h = (Ret MSG_NO_RESULTS, h1) /\
  calls is_generate h1 = calls is_generate h /\
  calls is_fetch h1 = calls is_fetch h.
Proof.
  split; [rewrite verify_run, Hempty; reflexivity|].
  destruct (search_appends w claim h) as (results & evs & Hrun & Hevs).
  rewrite Hrun in Hempty. injection Hempty as _ <-.
  rewrite !calls_app.
  rewrite (forallb_calls_zero (fun e => negb (is_fetch e) && negb (is_generate e)) is_generate evs),
          (forallb_calls_zero (fun e => negb (is_fetch e) && negb (is_generate e)) is_fetch evs);
    try assumption; try lia.
  - intros []; simpl; congruence.
  - intros []; simpl; congruence.
Qed.

(** Witness of C2, amended: the search provider of [offline] is down. *)
Lemma no_results_no_model_call_offline :
  search_the_web_google Scenarios.offline "The moon landing was faked" [] = (Ret [], []) /\
  verify_misinformation Scenarios.offline "The moon landing was faked" [] =
    (Ret MSG_NO_RESULTS, []).
Proof.
  split; [reflexivity|].
  apply (no_results_no_model_call Scenarios.offline "The moon landing was faked" [] [] eq_refl).
Defined.

(** Counterexample of C4: a 404 answer that carries an HTML body.
    [scrape_url_content] never reads the status, so the paragraphs of
    the error page come back as the body. *)
Lemma scrape_keeps_error_page :
  ~ scrape_blank_on_failure Scenarios.not_found "https://c.example/gone" [].
Proof.
  intros (_ & _ & H & _).
  specialize (H {| status_code := 404; content := Scenarios.page "<p>Not Found</p>" |}
                eq_refl ltac:(discriminate)).
  discriminate H.
Qed.

(** C4, amended.  [scrape_url_content] always returns a string and
    never raises: the empty string when the request raises (timeout,
    connection error) or the page does not parse, and otherwise, for a
    response of any status, the cut paragraph text.  The evidence loop
    goes through all results whatever the fetches do, and keeps the link
    of every result that has one. *)
Theorem scrape_absorbs_failures (w : world) (url : string) (h : trace) :
  (exists body h',
     scrape_url_content w url h = (Ret body, h') /\
     match requests_get w h url with
     | Raise _ => body = ""
     | Ret response =>
         match find_all_p_text w (content response) with
         | Raise _ => body = ""
         | Ret paragraphs => body = PyStr.slice_to 2500 (PyStr.join " " paragraphs)
         end
     end) /\
  (forall results i context sources, exists context' h',
     gather w i results context sources h =
       (Ret (context', (sources ++ usable_links results)%list), h')).
Proof.
  split.
  - rewrite scrape_run.
    destruct (requests_get w h url) as [response|e];
      [destruct (find_all_p_text w (content response))|];
      eexists; eexists; split; reflexivity.
  - intros results i context sources.
    destruct (gather_run w results i context sources h) as (context' & evs & H & _).
    eauto.
Qed.

(** Counterexample of C5: an image in which the OCR engine sees only
    blanks.  The stripped text is the empty string, and that string is
    what [get_text_from_image] returns, not [None]. *)
Lemma blank_ocr_is_not_none :
  ~ ocr_null_on_failure Scenarios.blank_image Scenarios.png [].
Proof.
  intros (_ & _ & _ & H).
  specialize (H Scenarios.png ("  " ++ PyStr.NL) eq_refl eq_refl eq_refl).
  discriminate H.
Qed.

(** C5, amended.  [get_text_from_image] never raises: it returns [None]
    when decoding fails or the OCR engine raises, and otherwise the
    trimmed recognized text, which is the empty string (not [None]) when
    nothing but blanks was recognized.  Either way the handler answers
    an image without text with the fixed "no text read" message. *)
Theorem ocr_absorbs_failures (w : world) (image_bytes : bytes) (h : trace) :
  exists text h',
    get_text_from_image w image_bytes h = (Ret text, h') /\
    match Image_open w h image_bytes with
    | Raise _ => text = None
    | Ret image =>
        match image_to_string w (h ++ [EvImageOpen image_bytes])%list image with
        | Raise _ => text = None
        | Ret raw => text = Some (PyStr.strip raw)
        end
    end /\
    forall user_input,
      freaksearch_handler w user_input (Some image_bytes) h =
      match image_bytes with
      | [] => respond w user_input h
      | _ :: _ => if truthy_str text then respond w text h' else (Ret MSG_NO_IMAGE_TEXT, h')
      end.
Proof.
  assert (Hrun : exists text h', get_text_from_image w image_bytes h = (Ret text, h') /\
            match Image_open w h image_bytes with
            | Raise _ => text = None
            | Ret image =>
                match image_to_string w (h ++ [EvImageOpen image_bytes])%list image with
                | Raise _ => text = None
                | Ret raw => text = Some (PyStr.strip raw)
                end
            end).
  { rewrite get_text_run.
    destruct (Image_open w h image_bytes) as [image|e];
      [destruct (image_to_string w (h ++ [EvImageOpen image_bytes])%list image)|];
      eexists; eexists; split; reflexivity. }
  destruct Hrun as (text & h' & Hrun & Hcases).
  exists text, h'. split; [exact Hrun|]. split; [exact Hcases|].
  intro user_input. destruct image_bytes as [|b bs]; [reflexivity|].
  rewrite handler_with_image, Hrun.
  destruct (truthy_str text); reflexivity.
Qed.

(* ===================================================================== *)
(** ** More on trimming and lowercasing *)
(* ===================================================================== *)

Lemma lower_char_idempotent (c : ascii) :
  PyStr.lower_char (PyStr.lower_char c) = PyStr.lower_char c.
Proof. destruct c as [[] [] [] [] [] [] [] []]; reflexivity. Qed.

Lemma isspace_lower_char (c : ascii) :
  PyStr.isspace (PyStr.lower_char c) = PyStr.isspace c.
Proof. destruct c as [[] [] [] [] [] [] [] []]; reflexivity. Qed.

Lemma lower_idempotent (s : string) : PyStr.lower (PyStr.lower s) = PyStr.lower s.
Proof.
  induction s as [|c r IH]; [reflexivity|].
  simpl. rewrite lower_char_idempotent, IH. reflexivity.
Qed.

Lemma lower_lstrip (s : string) : PyStr.lower (PyStr.lstrip s) = PyStr.lstrip (PyStr.lower s).
Proof.
  induction s as [|c r IH]; [reflexivity|].
  simpl. rewrite isspace_lower_char. destruct (PyStr.isspace c); [exact IH|reflexivity].
Qed.

Lemma lower_rstrip (s : string) : PyStr.lower (PyStr.rstrip s) = PyStr.rstrip (PyStr.lower s).
Proof.
  induction s as [|c r IH]; [reflexivity|].
  simpl. rewrite <- IH, isspace_lower_char.
  destruct (PyStr.rstrip r) as [|d r']; [|reflexivity].
  simpl. destruct (PyStr.isspace c); reflexivity.
Qed.

(** Trimming and lowercasing commute. *)
Lemma lower_strip (s : string) : PyStr.lower (PyStr.strip s) = PyStr.strip (PyStr.lower s).
Proof. unfold PyStr.strip. rewrite lower_rstrip, lower_lstrip. reflexivity. Qed.

Lemma lstrip_all_space (ws s : string) :
  all_space ws = true -> PyStr.lstrip (ws ++ s) = PyStr.lstrip s.
Proof.
  induction ws as [|c r IH]; [reflexivity|].
  simpl. intro H. apply andb_true_iff in H as [-> Hr]. auto.
Qed.

Lemma rstrip_all_space (ws : string) : all_space ws = true -> PyStr.rstrip ws = "".
Proof.
  induction ws as [|c r IH]; [reflexivity|].
  simpl. intro H. apply andb_true_iff in H as [-> Hr]. rewrite (IH Hr). reflexivity.
Qed.

Lemma rstrip_app_all_space (s ws : string) :
  all_space ws = true -> PyStr.rstrip (s ++ ws) = PyStr.rstrip s.
Proof.
  intro H. induction s as [|c r IH]; [apply rstrip_all_space, H|].
  simpl. rewrite IH. reflexivity.
Qed.

(** Whitespace around a text does not survive trimming. *)
Lemma strip_padding (ws1 s ws2 : string) :
  all_space ws1 = true -> all_space ws2 = true ->
  PyStr.strip (ws1 ++ s ++ ws2) = PyStr.strip s.
Proof.
  intros H1 H2. unfold PyStr.strip. rewrite (lstrip_all_space _ _ H1).
  induction s as [|c r IH].
  - simpl. replace (PyStr.lstrip ws2) with "".
    + reflexivity.
    + clear H1. induction ws2 as [|d ws IHw]; [reflexivity|].
      simpl in *. apply andb_true_iff in H2 as [-> Hw]. auto.
  - simpl. destruct (PyStr.isspace c); [exact IH|].
    apply (rstrip_app_all_space (String c r) ws2 H2).
Qed.

Lemma rstrip_idempotent (s : string) : PyStr.rstrip (PyStr.rstrip s) = PyStr.rstrip s.
Proof.
  induction s as [|c r IH]; [reflexivity|].
  simpl. destruct (PyStr.rstrip r) as [|d r'] eqn:E.
  - destruct (PyStr.isspace c) eqn:Ec; [reflexivity|]. simpl. rewrite Ec. reflexivity.
  - assert (Hstep : forall x,
              PyStr.rstrip (String c x) =
              match PyStr.rstrip x with
              | EmptyString => if PyStr.isspace c then EmptyString else String c EmptyString
              | String e x' => String c (String e x')
              end) by reflexivity.
    rewrite Hstep, IH. reflexivity.
Qed.

(** What [lstrip] leaves does not start with whitespace. *)
Lemma lstrip_head (s : string) :
  match PyStr.lstrip s with
  | EmptyString => True
  | String c _ => PyStr.isspace c = false
  end.
Proof.
  induction s as [|c r IH]; [exact I|].
  simpl. destruct (PyStr.isspace c) eqn:Ec; [exact IH|exact Ec].
Qed.

(** Trimming twice is trimming once. *)
Lemma strip_idempotent (s : string) : PyStr.strip (PyStr.strip s) = PyStr.strip s.
Proof.
  unfold PyStr.strip. pose proof (lstrip_head s) as Hhead.
  destruct (PyStr.lstrip s) as [|c r]; [reflexivity|].
  assert (Hkeep : exists r', PyStr.rstrip (String c r) = String c r').
  { simpl. rewrite Hhead. destruct (PyStr.rstrip r); eauto. }
  destruct Hkeep as [r' Hr']. rewrite Hr'. cbn [PyStr.lstrip]. rewrite Hhead.
  rewrite <- Hr'. apply rstrip_idempotent.
Qed.

(* ===================================================================== *)
(** ** Call budgets *)
(* ===================================================================== *)

Section Budgets.

Variable w : world.

(** A search makes at most one provider call and nothing else. *)
Lemma search_calls (query : string) (h : trace) :
  exists results evs,
    search_the_web_google w query h = (Ret results, (h ++ evs)%list) /\
    calls is_search evs <= 1 /\ calls is_fetch evs = 0 /\ calls is_generate evs = 0 /\
    forallb (fun e => negb (is_image_open e) && negb (is_ocr e)) evs = true /\
    (results <> [] -> calls is_search evs = 1) /\
    (honours_num w -> length results <= 3) /\
    (calls is_search evs = 1 \/ evs = [] /\ results = []).
Proof.
  rewrite search_run.
  destruct (negb (truthy_str (GOOGLE_API_KEY w)) || negb (truthy_str (SEARCH_ENGINE_ID w))).
  { exists [], []. rewrite app_nil_r.
    split; [reflexivity|]. split; [unfold calls; simpl; lia|]. do 3 (split; [reflexivity|]).
    split; [congruence|]. split; [simpl; lia|]. right. split; reflexivity. }
  destruct (cse_list w h query 3) as [res|e] eqn:Hres.
  - eexists; eexists; split; [reflexivity|].
    split; [unfold calls; simpl; lia|]. do 3 (split; [reflexivity|]).
    split; [reflexivity|]. split; [|left; reflexivity].
    intro Hnum. destruct (items res) as [l|] eqn:Hitems; [|simpl; lia].
    exact (Hnum h query 3 res l Hres Hitems).
  - eexists; eexists; split; [reflexivity|].
    split; [unfold calls; simpl; lia|]. do 3 (split; [reflexivity|]).
    split; [congruence|]. split; [simpl; lia|left; reflexivity].
Qed.

(** The evidence loop only fetches and prints. *)
Lemma gather_quiet (search_results : list search_item) :
  forall i context sources,
    appends (gather w i search_results context sources)
            (fun e => negb (is_image_open e) && negb (is_ocr e)).
Proof.
  induction search_results as [|r rest IH]; intros i context sources.
  - apply appends_ret.
  - simpl. destruct (truthy_str (link r)); [|apply IH].
    apply appends_bind; [|intro body; apply IH].
    intro h. rewrite scrape_run.
    destruct (requests_get w h (PyStr.of_opt (link r))) as [response|e];
      [destruct (find_all_p_text w (content response))|];
      eexists; eexists; split; reflexivity.
Qed.

(** What [verify_misinformation] may call, and in which combination. *)
Lemma verify_calls (claim : string) (h : trace) :
  exists answer evs,
    verify_misinformation w claim h = (Ret answer, (h ++ evs)%list) /\
    calls is_search evs <= 1 /\ calls is_generate evs <= 1 /\
    forallb (fun e => negb (is_image_open e) && negb (is_ocr e)) evs = true /\
    (calls is_generate evs = 1 ->
       truthy_str (GEMINI_API_KEY w) = true /\ calls is_search evs = 1) /\
    (0 < calls is_fetch evs -> calls is_search evs = 1) /\
    (honours_num w -> calls is_fetch evs <= 3) /\
    (truthy_str (GEMINI_API_KEY w) = false ->
       calls is_generate evs = 0 /\ (answer = MSG_NO_RESULTS \/ answer = MSG_NO_GEMINI)) /\
    (calls is_search evs = 1 \/ evs = []).
Proof.
  rewrite verify_run.
  destruct (search_calls claim h)
    as (results & evs & -> & Hs & Hf & Hg & Hq & Hone & Hcap & Halt).
  destruct results as [|r rs].
  { exists MSG_NO_RESULTS, evs. rewrite Hf, Hg.
    repeat split; auto; try lia. destruct Halt as [H|[H _]]; auto. }
  specialize (Hone ltac:(discriminate)).
  destruct (gather_run w (r :: rs) 0 "" [] (h ++ evs)%list)
    as (context & evs' & Hloop & Hf' & Hs' & Hg').
  destruct (gather_quiet (r :: rs) 0 "" [] (h ++ evs)%list) as (b & evs2 & Hrun2 & Hq').
  rewrite Hloop in *. change ([] ++ usable_links (r :: rs))%list with (usable_links (r :: rs)).
  assert (evs' = evs2).
  { injection Hrun2 as _ H2. apply app_inv_head in H2. exact H2. }
  subst evs2. clear Hrun2 b.
  pose proof (usable_links_length (r :: rs)) as Hle.
  assert (Hfetch : honours_num w -> length (usable_links (r :: rs)) <= 3).
  { intro Hnum. specialize (Hcap Hnum). lia. }
  destruct (truthy_str (GEMINI_API_KEY w)) eqn:Hkey; cbn [negb].
  - set (prompt := verdict_prompt claim context (usable_links (r :: rs))).
    assert (Hshape : forall answer,
      exists evs0, (((h ++ evs) ++ evs') ++ [EvGenerate prompt])%list = (h ++ evs0)%list /\
        calls is_search evs0 <= 1 /\ calls is_generate evs0 <= 1 /\
        forallb (fun e => negb (is_image_open e) && negb (is_ocr e)) evs0 = true /\
        (calls is_generate evs0 = 1 -> true = true /\ calls is_search evs0 = 1) /\
        (0 < calls is_fetch evs0 -> calls is_search evs0 = 1) /\
        (honours_num w -> calls is_fetch evs0 <= 3) /\
        (true = false ->
           calls is_generate evs0 = 0 /\ (answer = MSG_NO_RESULTS \/ answer = MSG_NO_GEMINI)) /\
        (calls is_search evs0 = 1 \/ evs0 = [])).
    { intro answer. exists (evs ++ evs' ++ [EvGenerate prompt])%list.
      rewrite <- !app_assoc. split; [reflexivity|].
      rewrite !calls_app, !forallb_app, Hq, Hq', Hf, Hf', Hs', Hg, Hg', Hone.
      change (calls is_search [EvGenerate prompt]) with 0.
      change (calls is_generate [EvGenerate prompt]) with 1.
      change (calls is_fetch [EvGenerate prompt]) with 0.
      repeat split; try lia; try reflexivity; try discriminate;
        try (intro Hnum; specialize (Hfetch Hnum); lia). }
    destruct (generate_content w ((h ++ evs) ++ evs')%list prompt) as [text|e].
    + destruct (Hshape text) as (evs0 & -> & H). exists text, evs0. split; [reflexivity|exact H].
    + destruct (Hshape ("Gemini analysis error: " ++ e)) as (evs0 & -> & H).
      exists ("Gemini analysis error: " ++ e), evs0. split; [reflexivity|exact H].
  - exists MSG_NO_GEMINI, (evs ++ evs')%list. rewrite <- app_assoc. split; [reflexivity|].
    rewrite !calls_app, !forallb_app, Hq, Hq', Hf, Hf', Hs', Hg, Hg', Hone.
    repeat split; try lia; try reflexivity; try discriminate; auto;
      try (intro Hnum; specialize (Hfetch Hnum); lia).
Qed.

End Budgets.

Section HandlerBudget.

Variable w : world.

(** OCR opens the image once, reads it at most once, and calls nothing else. *)
Lemma get_text_tally (image_bytes : bytes) (h : trace) :
  exists text evs,
    get_text_from_image w image_bytes h = (Ret text, (h ++ evs)%list) /\
    calls is_image_open evs = 1 /\ calls is_ocr evs <= 1 /\
    calls is_search evs = 0 /\ calls is_fetch evs = 0 /\ calls is_generate evs = 0.
Proof.
  rewrite get_text_run.
  destruct (Image_open w h image_bytes) as [image|e];
    [destruct (image_to_string w (h ++ [EvImageOpen image_bytes])%list image)|];
    eexists; eexists; (split; [reflexivity|]); unfold calls; simpl; lia.
Qed.

(** Classification without a model key calls nothing and never says
    [general_question]. *)
Lemma recognize_tally (user_input : string) (h : trace) :
  exists intent evs,
    recognize_intent w user_input h = (Ret intent, (h ++ evs)%list) /\
    calls is_search evs = 0 /\ calls is_fetch evs = 0 /\ calls is_generate evs <= 1 /\
    calls is_image_open evs = 0 /\ calls is_ocr evs = 0 /\
    (truthy_str (GEMINI_API_KEY w) = false -> evs = [] /\ intent <> general_question).
Proof.
  rewrite recognize_run.
  destruct (existsb _ greetings).
  { exists greeting, []. rewrite app_nil_r. unfold calls; simpl.
    repeat split; try lia. discriminate. }
  destruct (truthy_str (GEMINI_API_KEY w)); cbn [negb].
  - destruct (generate_content w h (intent_prompt user_input));
      eexists; eexists; (split; [reflexivity|]); unfold calls; simpl;
      repeat split; try lia; discriminate.
  - exists fact_checking_claim, []. rewrite app_nil_r. unfold calls; simpl.
    repeat split; try lia. discriminate.
Qed.

Lemma no_ocr_calls (evs : trace) :
  forallb (fun e => negb (is_image_open e) && negb (is_ocr e)) evs = true ->
  calls is_image_open evs = 0 /\ calls is_ocr evs = 0.
Proof.
  intro H. split.
  - apply (forallb_calls_zero _ is_image_open evs) in H; [exact H|].
    intros []; simpl; congruence.
  - apply (forallb_calls_zero _ is_ocr evs) in H; [exact H|].
    intros []; simpl; congruence.
Qed.

(** The calls of the handler once the text is known. *)
Lemma respond_calls (text : option string) (h : trace) :
  exists answer evs,
    respond w text h = (Ret answer, (h ++ evs)%list) /\
    calls is_search evs <= 1 /\ calls is_generate evs <= 2 /\
    calls is_image_open evs = 0 /\ calls is_ocr evs = 0 /\
    (honours_num w -> calls is_fetch evs <= 3) /\
    (truthy_str (GEMINI_API_KEY w) = false ->
       calls is_generate evs = 0 /\ In answer fixed_answers_without_model).
Proof.
  assert (Hnone : exists answer evs,
             ret MSG_NO_INPUT h = (Ret answer, (h ++ evs)%list) /\
             calls is_search evs <= 1 /\ calls is_generate evs <= 2 /\
             calls is_image_open evs = 0 /\ calls is_ocr evs = 0 /\
             (honours_num w -> calls is_fetch evs <= 3) /\
             (truthy_str (GEMINI_API_KEY w) = false ->
                calls is_generate evs = 0 /\ In answer fixed_answers_without_model)).
  { exists MSG_NO_INPUT, []. unfold ret. rewrite app_nil_r. unfold calls; simpl.
    repeat split; try lia. tauto. }
  destruct text as [[|c r]|]; simpl; [exact Hnone| |exact Hnone].
  unfold bind.
  destruct (recognize_tally (String c r) h)
    as (intent & evs & -> & Hs & Hf & Hg & Hi & Ho & Hkey).
  destruct intent.
  - exists MSG_GREETING, evs. unfold ret. rewrite Hs, Hf, Hi, Ho.
    repeat split; try lia.
    + destruct (Hkey H) as [-> _]. reflexivity.
    + simpl. tauto.
  - destruct (verify_calls w (String c r) (h ++ evs)%list)
      as (answer & evs' & -> & Hs' & Hg' & Hq' & _ & _ & Hf' & Hkey' & _).
    destruct (no_ocr_calls evs' Hq') as [Hi' Ho'].
    exists answer, (evs ++ evs')%list. rewrite <- app_assoc. split; [reflexivity|].
    rewrite !calls_app, Hs, Hf, Hi, Ho, Hi', Ho'.
    repeat split; try lia.
    + intro Hnum. specialize (Hf' Hnum). lia.
    + destruct (Hkey H) as [-> _]. destruct (Hkey' H) as [-> _]. reflexivity.
    + destruct (Hkey' H) as [_ [-> | ->]]; simpl; tauto.
  - exists MSG_ONLY_CLAIMS, evs. unfold ret. rewrite Hs, Hf, Hi, Ho.
    repeat split; try lia.
    + destruct (Hkey H) as [-> _]. reflexivity.
    + destruct (Hkey H) as [_ Hne]. congruence.
Qed.

(** The calls of a whole handler run. *)
Lemma handler_calls (user_input : option string) (image_bytes : option bytes) (h : trace) :
  exists answer evs,
    freaksearch_handler w user_input image_bytes h = (Ret answer, (h ++ evs)%list) /\
    calls is_search evs <= 1 /\ calls is_generate evs <= 2 /\
    calls is_image_open evs = (if truthy_bytes image_bytes then 1 else 0) /\
    calls is_ocr evs <= calls is_image_open evs /\
    (honours_num w -> calls is_fetch evs <= 3) /\
    (truthy_str (GEMINI_API_KEY w) = false ->
       calls is_generate evs = 0 /\ In answer fixed_answers_without_model).
Proof.
  unfold freaksearch_handler. destruct (truthy_bytes image_bytes).
  - unfold bind.
    destruct (get_text_tally (match image_bytes with Some b => b | None => [] end) h)
      as (text & evs & -> & Hi & Ho & Hs & Hf & Hg).
    destruct (negb (truthy_str text)).
    + exists MSG_NO_IMAGE_TEXT, evs. unfold ret. rewrite Hs, Hf, Hg, Hi.
      repeat split; try lia. simpl. tauto.
    + destruct (respond_calls text (h ++ evs)%list)
        as (answer & evs' & -> & Hs' & Hg' & Hi' & Ho' & Hf' & Hkey').
      exists answer, (evs ++ evs')%list. rewrite <- app_assoc. split; [reflexivity|].
      rewrite !calls_app, Hs, Hf, Hg, Hi, Hi', Ho'.
      repeat split; try lia.
      * intro Hnum. specialize (Hf' Hnum). lia.
      * destruct (Hkey' H) as [-> _]. reflexivity.
      * destruct (Hkey' H) as [_ Hin]. exact Hin.
  - destruct (respond_calls user_input h)
      as (answer & evs & -> & Hs & Hg & Hi & Ho & Hf & Hkey).
    exists answer, evs. rewrite Hi, Ho. repeat split; auto.
    + destruct (Hkey H) as [H0 _]. exact H0.
    + destruct (Hkey H) as [_ Hin]. exact Hin.
Qed.

End HandlerBudget.

(* ===================================================================== *)
(** ** Further properties of model.py *)
(* ===================================================================== *)

(** X1.  With both search credentials configured, a provider error, a
    response without ['items'] and an empty ['items'] list all end the
    same way: [verify_misinformation] returns the fixed "could not fetch
    search results" message after the one search call (and the one
    printed line, for an error), with no fetch and no model call. *)
Theorem search_failure_means_no_results (w : world) (claim : string) (h : trace)
    (Hgoogle : truthy_str (GOOGLE_API_KEY w) = true)
    (Hcx : truthy_str (SEARCH_ENGINE_ID w) = true)
    (Hfail : match cse_list w h claim 3 with
             | Raise _ => True
             | Ret res => items res = None \/ items res = Some []
             end) :
  verify_misinformation w claim h =
    (Ret MSG_NO_RESULTS,
     (h ++ EvSearch claim 3 ::
        match cse_list w h claim 3 with
        | Raise e => [EvPrint ("Google API search error: " ++ e)]
        | Ret _ => []
        end)%list).
Proof.
  rewrite verify_run, search_run, Hgoogle, Hcx. cbn [negb orb].
  destruct (cse_list w h claim 3) as [res|e]; [|reflexivity].
  destruct Hfail as [-> | ->]; reflexivity.
Qed.

(** Witness of X1: the provider of [quota_exceeded] answers 429. *)
Lemma search_failure_means_no_results_quota :
  truthy_str (GOOGLE_API_KEY Cases.quota_exceeded) = true /\
  truthy_str (SEARCH_ENGINE_ID Cases.quota_exceeded) = true /\
  verify_misinformation Cases.quota_exceeded "The moon landing was faked" [] =
    (Ret MSG_NO_RESULTS,
     [EvSearch "The moon landing was faked" 3;
      EvPrint "Google API search error: HttpError 429"]).
Proof.
  split; [reflexivity|]. split; [reflexivity|].
  exact (search_failure_means_no_results
           Cases.quota_exceeded "The moon landing was faked" [] eq_refl eq_refl I).
Defined.

(** X2.  The model key is looked at only after the evidence loop: when
    the search returns results and no model key is configured, every
    usable link is still fetched, and the answer is the fixed "Gemini
    API key missing" message without any model call. *)
Theorem no_model_key_still_fetches (w : world) (claim : string) (h h1 : trace)
    (r : search_item) (rs : list search_item)
    (Hkey : truthy_str (GEMINI_API_KEY w) = false)
    (Hsearch : search_the_web_google w claim h = (Ret (r :: rs), h1)) :
  exists evs,
    verify_misinformation w claim h = (Ret MSG_NO_GEMINI, (h1 ++ evs)%list) /\
    calls is_fetch evs = length (usable_links (r :: rs)) /\
    calls is_generate evs = 0 /\ calls is_search evs = 0.
Proof.
  rewrite verify_run, Hsearch.
  destruct (gather_run w (r :: rs) 0 "" [] h1) as (context & evs & -> & Hf & Hs & Hg).
  rewrite Hkey. exists evs. auto.
Qed.

(** Witness of X2: [search_only] has no model key and two usable links. *)
Lemma no_model_key_still_fetches_search_only :
  truthy_str (GEMINI_API_KEY Cases.search_only) = false /\
  exists evs,
    verify_misinformation Cases.search_only "The moon landing was faked" [] =
      (Ret MSG_NO_GEMINI, ([EvSearch "The moon landing was faked" 3] ++ evs)%list) /\
    calls is_fetch evs = 2.
Proof.
  split; [reflexivity|].
  destruct (no_model_key_still_fetches Cases.search_only "The moon landing was faked" []
              [EvSearch "The moon landing was faked" 3]
              {| title := Some "Apollo 11"; link := Some "https://a.example/apollo";
                 snippet := None |}
              (tl Scenarios.moon_results) eq_refl eq_refl) as (evs & Hrun & Hf & _).
  exists evs. split; [exact Hrun|exact Hf].
Defined.

(** X3.  Every run of [verify_misinformation] returns normally and
    either makes exactly one search call or makes no call at all; it
    calls the model at most once, never without a model key, and never
    opens or reads an image. *)
Theorem verify_call_budget (w : world) (claim : string) (h : trace) :
  exists answer evs,
    verify_misinformation w claim h = (Ret answer, (h ++ evs)%list) /\
    (calls is_search evs = 1 \/ evs = []) /\
    calls is_generate evs <= (if truthy_str (GEMINI_API_KEY w) then 1 else 0) /\
    calls is_image_open evs = 0 /\ calls is_ocr evs = 0.
Proof.
  destruct (verify_calls w claim h)
    as (answer & evs & Hrun & _ & Hg & Hq & _ & _ & _ & Hkey & Halt).
  destruct (no_ocr_calls evs Hq) as [Hi Ho].
  exists answer, evs. repeat split; try assumption.
  destruct (truthy_str (GEMINI_API_KEY w)); [exact Hg|].
  destruct (Hkey eq_refl) as [-> _]. lia.
Qed.

(** X4.  Results without a usable link are passed over without a fetch
    and without a trace; all they change is the number the next source
    is given, which counts their positions. *)
Theorem linkless_results_only_shift_index (w : world) (skipped rest : list search_item)
    (i : nat) (context : string) (sources : list string) (h : trace)
    (Hskipped : forallb (fun r => negb (truthy_str (link r))) skipped = true) :
  gather w i (skipped ++ rest)%list context sources h =
  gather w (i + length skipped) rest context sources h.
Proof.
  revert i. induction skipped as [|r skipped IH]; intro i.
  - simpl. rewrite Nat.add_0_r. reflexivity.
  - simpl in Hskipped. apply andb_true_iff in Hskipped as [Hr Hrest].
    apply negb_true_iff in Hr.
    change ((r :: skipped) ++ rest)%list with (r :: (skipped ++ rest))%list.
    rewrite gather_cons, Hr, (IH Hrest). simpl length.
    rewrite Nat.add_succ_r. reflexivity.
Qed.

(** Witness of X4: after two linkless results the Apollo page is
    "Source [3]". *)
Lemma linkless_results_only_shift_index_apollo :
  forallb (fun r => negb (truthy_str (link r)))
          [ {| title := Some "a"; link := None; snippet := None |};
            {| title := Some "b"; link := Some ""; snippet := None |} ] = true /\
  gather Scenarios.online 0
         [ {| title := Some "a"; link := None; snippet := None |};
           {| title := Some "b"; link := Some ""; snippet := None |};
           {| title := Some "Apollo 11"; link := Some "https://a.example/apollo";
              snippet := None |} ] "" [] [] =
    (Ret ("Source [3]: Apollo 11" ++ PyStr.NL ++ "URL: https://a.example/apollo" ++ PyStr.NL ++
          "Content: Eagle landed" ++ PyStr.NL ++ PyStr.NL,
          ["https://a.example/apollo"]),
     [EvHttpGet "https://a.example/apollo"]).
Proof.
  split; [reflexivity|].
  refine (eq_trans
            (linkless_results_only_shift_index Scenarios.online
               [ {| title := Some "a"; link := None; snippet := None |};
                 {| title := Some "b"; link := Some ""; snippet := None |} ]
               [ {| title := Some "Apollo 11"; link := Some "https://a.example/apollo";
                    snippet := None |} ] 0 "" [] [] eq_refl) _).
  reflexivity.
Defined.

(** X5.  Every handler run returns normally with at most one search
    call and at most two model calls (one to classify, one to analyse).
    With a non-empty image payload the first thing the run does is open
    that image, once; the OCR engine runs at most once, immediately
    after the opening and on the image the opening returned.  Without
    an image payload the run neither opens nor reads an image. *)
Theorem handler_call_budget (w : world) (user_input : option string)
    (image_bytes : option bytes) (h : trace) :
  exists answer evs,
    freaksearch_handler w user_input image_bytes h = (Ret answer, (h ++ evs)%list) /\
    calls is_search evs <= 1 /\ calls is_generate evs <= 2 /\
    match image_bytes with
    | Some (b :: bs) =>
        exists rest,
          evs = EvImageOpen (b :: bs) :: rest /\
          calls is_image_open rest = 0 /\
          (calls is_ocr rest = 0 \/
           exists image rest',
             Image_open w h (b :: bs) = Ret image /\
             rest = EvOcr image :: rest' /\ calls is_ocr rest' = 0)
    | _ => calls is_image_open evs = 0 /\ calls is_ocr evs = 0
    end.
Proof.
  assert (Hno_image : forall image_bytes',
            truthy_bytes image_bytes' = false ->
            exists answer evs,
              freaksearch_handler w user_input image_bytes' h = (Ret answer, (h ++ evs)%list) /\
              calls is_search evs <= 1 /\ calls is_generate evs <= 2 /\
              calls is_image_open evs = 0 /\ calls is_ocr evs = 0).
  { intros image_bytes' Hfalse. unfold freaksearch_handler. rewrite Hfalse.
    destruct (respond_calls w user_input h) as (answer & evs & Hrun & Hs & Hg & Hi & Ho & _).
    exists answer, evs. auto. }
  destruct image_bytes as [[|b bs]|]; [apply Hno_image; reflexivity| |apply Hno_image; reflexivity].
  rewrite handler_with_image, get_text_run.
  destruct (Image_open w h (b :: bs)) as [image|e] eqn:Hopen.
  - destruct (image_to_string w (h ++ [EvImageOpen (b :: bs)])%list image) as [raw|e].
    + destruct (negb (truthy_str (Some (PyStr.strip raw)))).
      * exists MSG_NO_IMAGE_TEXT, [EvImageOpen (b :: bs); EvOcr image].
        split; [reflexivity|]. split; [unfold calls; simpl; lia|].
        split; [unfold calls; simpl; lia|].
        exists [EvOcr image]. split; [reflexivity|]. split; [reflexivity|].
        right. exists image, []. auto.
      * destruct (respond_calls w (Some (PyStr.strip raw))
                    (h ++ [EvImageOpen (b :: bs); EvOcr image])%list)
          as (answer & evs & -> & Hs & Hg & Hi & Ho & _).
        exists answer, ([EvImageOpen (b :: bs); EvOcr image] ++ evs)%list.
        rewrite <- app_assoc. split; [reflexivity|].
        rewrite !calls_app.
        split; [unfold calls at 1; simpl; lia|]. split; [unfold calls at 1; simpl; lia|].
        exists (EvOcr image :: evs). split; [reflexivity|].
        split; [exact Hi|]. right. exists image, evs. auto.
    + exists MSG_NO_IMAGE_TEXT,
        [EvImageOpen (b :: bs); EvOcr image; EvPrint ("OCR error: " ++ e)].
      split; [reflexivity|]. split; [unfold calls; simpl; lia|].
      split; [unfold calls; simpl; lia|].
      exists [EvOcr image; EvPrint ("OCR error: " ++ e)].
      split; [reflexivity|]. split; [reflexivity|].
      right. exists image, [EvPrint ("OCR error: " ++ e)]. auto.
  - exists MSG_NO_IMAGE_TEXT, [EvImageOpen (b :: bs); EvPrint ("OCR error: " ++ e)].
    split; [reflexivity|]. split; [unfold calls; simpl; lia|].
    split; [unfold calls; simpl; lia|].
    exists [EvPrint ("OCR error: " ++ e)]. split; [reflexivity|]. split; [reflexivity|].
    left. reflexivity.
Qed.

(** X6.  With a search provider that returns no more entries than it
    is asked for, a handler run fetches at most three pages. *)
Theorem handler_fetch_budget (w : world) (Hnum : honours_num w)
    (user_input : option string) (image_bytes : option bytes) (h : trace) :
  exists answer evs,
    freaksearch_handler w user_input image_bytes h = (Ret answer, (h ++ evs)%list) /\
    calls is_fetch evs <= 3.
Proof.
  destruct (handler_calls w user_input image_bytes h)
    as (answer & evs & Hrun & _ & _ & _ & _ & Hf & _).
  exists answer, evs. auto.
Qed.

(** Witness of X6: a claim typed into the [online] world costs two fetches. *)
Lemma handler_fetch_budget_online :
  honours_num Scenarios.online /\
  exists answer evs,
    freaksearch_handler Scenarios.online (Some "The moon landing was faked") None [] =
      (Ret answer, evs) /\
    calls is_fetch evs <= 3.
Proof.
  assert (H : honours_num Scenarios.online).
  { intros h q n r l Hr Hl. injection Hr as <-. injection Hl as <-.
    apply firstn_le_length. }
  split; [exact H|].
  destruct (handler_fetch_budget Scenarios.online H (Some "The moon landing was faked") None [])
    as (answer & evs & Hrun & Hf).
  exists answer, evs. split; [exact Hrun|exact Hf].
Defined.

(** X7.  Without a model key the handler never calls the model, and
    its answer is one of five fixed strings: no text in the image, no
    input, the greeting, no search results, or the missing-key notice.
    It never answers "I only verify news claims". *)
Theorem no_model_key_fixed_answers (w : world)
    (Hkey : truthy_str (GEMINI_API_KEY w) = false)
    (user_input : option string) (image_bytes : option bytes) (h : trace) :
  exists answer evs,
    freaksearch_handler w user_input image_bytes h = (Ret answer, (h ++ evs)%list) /\
    calls is_generate evs = 0 /\
    In answer fixed_answers_without_model /\
    answer <> MSG_ONLY_CLAIMS.
Proof.
  destruct (handler_calls w user_input image_bytes h)
    as (answer & evs & Hrun & _ & _ & _ & _ & _ & Hno).
  destruct (Hno Hkey) as [Hg Hin].
  exists answer, evs. repeat split; try assumption.
  intros ->. simpl in Hin. intuition discriminate.
Qed.

(** Witness of X7: a claim typed into [search_only]. *)
Lemma no_model_key_fixed_answers_search_only :
  truthy_str (GEMINI_API_KEY Cases.search_only) = false /\
  exists answer evs,
    freaksearch_handler Cases.search_only (Some "The moon landing was faked") None [] =
      (Ret answer, evs) /\
    calls is_generate evs = 0 /\ answer = MSG_NO_GEMINI.
Proof.
  split; [reflexivity|].
  destruct (no_model_key_fixed_answers Cases.search_only eq_refl
              (Some "The moon landing was faked") None [])
    as (answer & evs & Hrun & Hg & _).
  exists answer, evs. split; [exact Hrun|]. split; [exact Hg|].
  vm_compute in Hrun. injection Hrun as <- _. reflexivity.
Defined.

(** X8.  [general_question] is never a fallback: [recognize_intent]
    returns it only when a model key is configured and the model call
    itself returned an answer without the claim label.  The handler then
    answers a typed text with "I only verify news claims" after that one
    model call, with no search and no fetch. *)
Theorem general_question_needs_model_answer (w : world) (text : string) (h h1 : trace)
    (Hintent : recognize_intent w text h = (Ret general_question, h1)) :
  truthy_str (GEMINI_API_KEY w) = true /\
  (exists response,
     generate_content w h (intent_prompt text) = Ret response /\
     PyStr.contains "fact_checking_claim" (normalize_label response) = false) /\
  h1 = (h ++ [EvGenerate (intent_prompt text)])%list /\
  freaksearch_handler w (Some text) None h =
    match text with
    | EmptyString => (Ret MSG_NO_INPUT, h)
    | String _ _ => (Ret MSG_ONLY_CLAIMS, h1)
    end.
Proof.
  assert (Hhandler : freaksearch_handler w (Some text) None h =
                     match text with
                     | EmptyString => (Ret MSG_NO_INPUT, h)
                     | String _ _ => (Ret MSG_ONLY_CLAIMS, h1)
                     end).
  { destruct text as [|c r]; [reflexivity|].
    change (respond w (Some (String c r)) h = (Ret MSG_ONLY_CLAIMS, h1)).
    cbn [respond]. unfold bind. rewrite Hintent. reflexivity. }
  rewrite recognize_run in Hintent.
  destruct (existsb _ greetings); [discriminate|].
  destruct (truthy_str (GEMINI_API_KEY w)); cbn [negb] in Hintent; [|discriminate].
  destruct (generate_content w h (intent_prompt text)) as [response|e]; [|discriminate].
  destruct (PyStr.contains "fact_checking_claim" (normalize_label response)) eqn:Hlabel;
    [discriminate|].
  injection Hintent as <-.
  split; [reflexivity|]. split; [exists response; auto|]. split; [reflexivity|exact Hhandler].
Qed.

(** Witness of X8: the model of [dismissive] calls a question a question. *)
Lemma general_question_needs_model_answer_dismissive :
  recognize_intent Cases.dismissive "What time is it?" [] =
    (Ret general_question, [EvGenerate (intent_prompt "What time is it?")]) /\
  freaksearch_handler Cases.dismissive (Some "What time is it?") None [] =
    (Ret MSG_ONLY_CLAIMS, [EvGenerate (intent_prompt "What time is it?")]).
Proof.
  split; [reflexivity|].
  exact (proj2 (proj2 (proj2
           (general_question_needs_model_answer Cases.dismissive "What time is it?" []
              [EvGenerate (intent_prompt "What time is it?")] eq_refl)))).
Defined.

(** X9.  Greeting detection ignores whitespace around the text and the
    case of its letters: if a text is a greeting, so is the text with
    any whitespace put around it and so is its lowercased form, and the
    handler answers the padded text with the greeting without any call. *)
Theorem greeting_ignores_padding_and_case (w : world) (text ws1 ws2 : string) (h : trace)
    (Hgreet : In (PyStr.lower (PyStr.strip text)) greetings)
    (Hws1 : all_space ws1 = true) (Hws2 : all_space ws2 = true) :
  recognize_intent w (ws1 ++ text ++ ws2) h = (Ret greeting, h) /\
  recognize_intent w (PyStr.lower text) h = (Ret greeting, h) /\
  freaksearch_handler w (Some (ws1 ++ text ++ ws2)) None h = (Ret MSG_GREETING, h).
Proof.
  assert (Hpad : In (PyStr.lower (PyStr.strip (ws1 ++ text ++ ws2))) greetings).
  { rewrite strip_padding; assumption. }
  assert (Hlow : In (PyStr.lower (PyStr.strip (PyStr.lower text))) greetings).
  { rewrite <- lower_strip, lower_idempotent. exact Hgreet. }
  split; [|split].
  - rewrite recognize_run. apply greetings_decide in Hpad. rewrite Hpad. reflexivity.
  - rewrite recognize_run. apply greetings_decide in Hlow. rewrite Hlow. reflexivity.
  - apply respond_greeting. exact Hpad.
Qed.

(** Witness of X9: "Good Morning" between a tab and a line end. *)
Lemma greeting_ignores_padding_and_case_morning :
  In (PyStr.lower (PyStr.strip "Good Morning")) greetings /\
  freaksearch_handler Scenarios.offline
    (Some (String "009"%char " " ++ "Good Morning" ++ PyStr.NL)) None [] =
    (Ret MSG_GREETING, []).
Proof.
  assert (H : In (PyStr.lower (PyStr.strip "Good Morning")) greetings).
  { simpl. tauto. }
  split; [exact H|].
  exact (proj2 (proj2 (greeting_ignores_padding_and_case Scenarios.offline "Good Morning"
                         (String "009"%char " ") PyStr.NL [] H eq_refl eq_refl))).
Defined.

(** X10.  A text that [get_text_from_image] returns is already trimmed:
    trimming it again, on either side, changes nothing, and it does not
    start with whitespace. *)
Theorem ocr_text_is_trimmed (w : world) (image_bytes : bytes) (h h' : trace) (text : string)
    (Hrun : get_text_from_image w image_bytes h = (Ret (Some text), h')) :
  PyStr.strip text = text /\ PyStr.lstrip text = text /\ PyStr.rstrip text = text /\
  match text with
  | EmptyString => True
  | String c _ => PyStr.isspace c = false
  end.
Proof.
  rewrite get_text_run in Hrun.
  destruct (Image_open w h image_bytes) as [image|e]; [|discriminate].
  destruct (image_to_string w (h ++ [EvImageOpen image_bytes])%list image) as [raw|e];
    [|discriminate].
  injection Hrun as <- _.
  assert (Hr : PyStr.rstrip (PyStr.strip raw) = PyStr.strip raw)
    by (unfold PyStr.strip; apply rstrip_idempotent).
  assert (Hs : PyStr.strip (PyStr.strip raw) = PyStr.strip raw) by apply strip_idempotent.
  assert (Hl : PyStr.lstrip (PyStr.strip raw) = PyStr.strip raw).
  { unfold PyStr.strip at 1 in Hs. rewrite <- Hs at 2.
    unfold PyStr.strip at 2. unfold PyStr.strip in Hr.
    pose proof (lstrip_head raw) as Hhead. unfold PyStr.strip.
    destruct (PyStr.lstrip raw) as [|c r]; [reflexivity|].
    assert (Hkeep : exists r', PyStr.rstrip (String c r) = String c r').
    { simpl. rewrite Hhead. destruct (PyStr.rstrip r); eauto. }
    destruct Hkeep as [r' Hr']. rewrite Hr'. cbn [PyStr.lstrip]. rewrite Hhead.
    rewrite <- Hr'. symmetry. apply rstrip_idempotent. }
  split; [exact Hs|]. split; [exact Hl|]. split; [exact Hr|].
  destruct (PyStr.strip raw) as [|c r] eqn:E; [exact I|].
  simpl in Hl. destruct (PyStr.isspace c) eqn:Ec; [|reflexivity].
  exfalso. pose proof (lstrip_head r) as Hhead. rewrite Hl in Hhead. congruence.
Qed.

(** Witness of X10: the OCR engine of [online] reads ["  Hello\n"]. *)
Lemma ocr_text_is_trimmed_hello :
  get_text_from_image Scenarios.online Scenarios.png [] =
    (Ret (Some "Hello"), [EvImageOpen Scenarios.png; EvOcr Scenarios.png]) /\
  PyStr.strip "Hello" = "Hello".
Proof.
  split; [reflexivity|].
  exact (proj1 (ocr_text_is_trimmed Scenarios.online Scenarios.png []
                  [EvImageOpen Scenarios.png; EvOcr Scenarios.png] "Hello" eq_refl)).
Defined.

(** X11.  Whatever a site answers, the body [scrape_url_content]
    returns is at most 2500 characters long, so each source adds a
    bounded amount of page text to the analysis prompt. *)
Theorem scrape_body_bounded (w : world) (url : string) (h : trace) :
  exists body h',
    scrape_url_content w url h = (Ret body, h') /\ String.length body <= 2500.
Proof.
  rewrite scrape_run.
  destruct (requests_get w h url) as [response|e];
    [destruct (find_all_p_text w (content response)) as [paragraphs|e]|];
    eexists; eexists; (split; [reflexivity|]); try (simpl; lia).
  rewrite slice_to_length. apply Nat.le_min_l.
Qed.

(* ===================================================================== *)
(** ** main.py: how the endpoints run *)
(* ===================================================================== *)

Section IoFacts.

Import Main.

Context {A B : Type}.

Lemma emits_ret (a : A) (p : io -> bool) : emits (io_ret a) p.
Proof. intro h. exists []. rewrite app_nil_r. split; reflexivity. Qed.

Lemma emits_throw (e : pyexn) (p : io -> bool) : emits (@throw A e) p.
Proof. intro h. exists []. rewrite app_nil_r. split; reflexivity. Qed.

Lemma emits_call (ev : io) (oracle : log -> result A) (p : io -> bool) :
  p ev = true -> emits (io_call ev oracle) p.
Proof. intros Hp h. exists [ev]. simpl. rewrite Hp. split; reflexivity. Qed.

Lemma emits_bind (m : IO A) (k : A -> IO B) (p : io -> bool) :
  emits m p -> (forall a, emits (k a) p) -> emits (io_bind m k) p.
Proof.
  intros Hm Hk h. unfold io_bind.
  destruct (Hm h) as (evs & Hrun & Hevs).
  destruct (m h) as [[a|e] h']; simpl in Hrun; subst h'.
  - destruct (Hk a (h ++ evs)%list) as (evs' & Hrun' & Hevs').
    exists (evs ++ evs')%list. rewrite app_assoc, forallb_app, Hevs, Hevs'. auto.
  - exists evs. auto.
Qed.

End IoFacts.

Section EndpointRuns.

Import Main.

Variable s : server.

(** How [get_db_connection] runs. *)
Lemma get_db_connection_run (h : log) :
  get_db_connection s h =
  match mysql_connect s h with
  | Ok _ =>
      match is_connected s (h ++ [IoConnect])%list with
      | Ok true => (Ok (Some tt), (h ++ [IoConnect; IoIsConnected])%list)
      | Ok false => (Ok None, (h ++ [IoConnect; IoIsConnected])%list)
      | Throw (MysqlError msg) =>
          (Ok None,
           (h ++ [IoConnect; IoIsConnected;
                  IoPrint (cross_mark ++ " DB connection error: " ++ msg)])%list)
      | Throw e => (Throw e, (h ++ [IoConnect; IoIsConnected])%list)
      end
  | Throw (MysqlError msg) =>
      (Ok None, (h ++ [IoConnect; IoPrint (cross_mark ++ " DB connection error: " ++ msg)])%list)
  | Throw e => (Throw e, (h ++ [IoConnect])%list)
  end.
Proof.
  unfold get_db_connection, try_except_mysql, io_bind, io_call, io_print, io_ret.
  destruct (mysql_connect s h) as [[]|[]]; try reflexivity.
  - destruct (is_connected s (h ++ [IoConnect])%list) as [[]|[]];
      rewrite <- ?app_assoc; reflexivity.
  - rewrite <- app_assoc. reflexivity.
Qed.

(** When the database is down, [get_db_connection] returns [None]
    without any cursor, query, commit or close. *)
Lemma get_db_connection_down (h : log) :
  database_down s h ->
  exists evs,
    get_db_connection s h = (Ok None, (h ++ evs)%list) /\ count is_db_work evs = 0.
Proof.
  unfold database_down. intro Hdown. rewrite get_db_connection_run.
  destruct (mysql_connect s h) as [[]|[]]; try contradiction.
  - destruct (is_connected s (h ++ [IoConnect])%list) as [[]|[]];
      try contradiction; try discriminate; eexists; split; reflexivity.
  - eexists; split; reflexivity.
Qed.

(** [try: ... finally: conn.close()] ends with the close, whatever the
    body did. *)
Lemma try_finally_close {A} (body : IO A) (h : log) :
  snd (try_finally body (io_call IoClose (conn_close s)) h) = (snd (body h) ++ [IoClose])%list.
Proof.
  unfold try_finally, io_call. destruct (body h) as [outcome h'].
  destruct (conn_close s h'); reflexivity.
Qed.

End EndpointRuns.

(* ===================================================================== *)
(** ** Properties of main.py *)
(* ===================================================================== *)

(** X12.  When no database connection can be had ([connect] raises a
    MySQL error, or the connection is not connected), all four database
    endpoints answer status 500 with "Database connection failed.":
    [register_user] as a returned JSON response, the other three as a
    raised [HTTPException]; none of them opens a cursor, runs a query,
    commits or closes. *)
Theorem database_down_answers_500 (s : Main.server) (h : Main.log)
    (Hdown : Main.database_down s h) :
  exists evs,
    Main.count Main.is_db_work evs = 0 /\
    (forall user,
       Main.register_user s user h =
         (Main.Ok (Main.JSONResponse 500 "Database connection failed."), (h ++ evs)%list)) /\
    (forall user,
       Main.login_user s user h =
         (Main.Throw (Main.HTTPException 500 "Database connection failed."), (h ++ evs)%list)) /\
    (forall user_id,
       Main.get_chat_history s user_id h =
         (Main.Throw (Main.HTTPException 500 "Database connection failed."), (h ++ evs)%list)) /\
    (forall user_id input_text,
       Main.save_chat s user_id input_text h =
         (Main.Throw (Main.HTTPException 500 "Database connection failed."), (h ++ evs)%list)).
Proof.
  destruct (get_db_connection_down s h Hdown) as (evs & Hconn & Hquiet).
  exists evs. split; [exact Hquiet|].
  repeat split; intros;
    unfold Main.register_user, Main.login_user, Main.get_chat_history, Main.save_chat,
           Main.io_bind; rewrite Hconn; reflexivity.
Qed.

(** Witness of X12: the [unreachable] server. *)
Lemma database_down_answers_500_unreachable :
  Main.database_down Main.unreachable [] /\
  Main.login_user Main.unreachable
      {| Main.login_username := "alice"; Main.login_password := "wonderland" |} [] =
    (Main.Throw (Main.HTTPException 500 "Database connection failed."),
     [Main.IoConnect;
      Main.IoPrint (Main.cross_mark ++
                    " DB connection error: 2003: Can't connect to MySQL server")]).
Proof.
  assert (H : Main.database_down Main.unreachable []) by exact I.
  split; [exact H|].
  destruct (database_down_answers_500 Main.unreachable [] H) as (evs & _ & _ & Hlogin & _).
  rewrite Hlogin.
  specialize (Hlogin {| Main.login_username := "alice"; Main.login_password := "wonderland" |}).
  vm_compute in Hlogin. injection Hlogin as <-. reflexivity.
Defined.

(** X13.  Once [register_user] or [save_chat] holds a connection, it
    closes it exactly once, as the last thing it does, on every way
    out: a normal return, the early "already exists" return, or an
    exception of the cursor, a query, the password hash or the commit. *)
Theorem writers_always_close (s : Main.server) (h h1 : Main.log)
    (Hconn : Main.get_db_connection s h = (Main.Ok (Some tt), h1)) :
  (forall user, exists evs,
     snd (Main.register_user s user h) = (h1 ++ evs ++ [Main.IoClose])%list /\
     Main.count Main.is_close evs = 0) /\
  (forall user_id input_text, exists evs,
     snd (Main.save_chat s user_id input_text h) = (h1 ++ evs ++ [Main.IoClose])%list /\
     Main.count Main.is_close evs = 0).
Proof.
  assert (Hquiet : forall evs, forallb (fun e => negb (Main.is_close e)) evs = true ->
                               Main.count Main.is_close evs = 0).
  { intros evs H. unfold Main.count. induction evs as [|e evs IH]; [reflexivity|].
    simpl in *. apply andb_true_iff in H as [He H].
    apply negb_true_iff in He. rewrite He. auto. }
  split.
  - intro user. unfold Main.register_user, Main.io_bind at 1. rewrite Hconn.
    rewrite try_finally_close.
    match goal with |- context [snd (?body h1)] =>
      assert (Hbody : Main.emits body (fun e => negb (Main.is_close e)))
    end.
    { apply emits_bind; [apply emits_call; reflexivity|intros _].
      apply emits_bind; [apply emits_call; reflexivity|intros _].
      apply emits_bind; [apply emits_call; reflexivity|intros [row|]].
      - apply emits_ret.
      - apply emits_bind; [apply emits_call; reflexivity|intros hashed].
        apply emits_bind; [apply emits_call; reflexivity|intros _].
        apply emits_bind; [apply emits_call; reflexivity|intros _].
        apply emits_ret. }
    destruct (Hbody h1) as (evs & -> & Hevs).
    exists evs. rewrite <- app_assoc. auto.
  - intros user_id input_text. unfold Main.save_chat, Main.io_bind at 1. rewrite Hconn.
    rewrite try_finally_close.
    match goal with |- context [snd (?body h1)] =>
      assert (Hbody : Main.emits body (fun e => negb (Main.is_close e)))
    end.
    { apply emits_bind; [apply emits_call; reflexivity|intros _].
      apply emits_bind; [apply emits_call; reflexivity|intros _].
      apply emits_bind; [apply emits_call; reflexivity|intros _].
      intro h0. exists []. rewrite app_nil_r. split; reflexivity. }
    destruct (Hbody h1) as (evs & -> & Hevs).
    exists evs. rewrite <- app_assoc. auto.
Qed.

(** Witness of X13: saving a chat while the server goes away. *)
Lemma writers_always_close_gone_away :
  Main.get_db_connection Main.gone_away [] =
    (Main.Ok (Some tt), [Main.IoConnect; Main.IoIsConnected]) /\
  Main.save_chat Main.gone_away 7%Z "hello" [] =
    (Main.Throw (Main.MysqlError "2006: MySQL server has gone away"),
     [Main.IoConnect; Main.IoIsConnected; Main.IoCursor false;
      Main.IoExecute Main.INSERT_SUBMISSION [Main.SqlInt 7%Z; Main.SqlStr "hello"];
      Main.IoClose]).
Proof.
  split; [reflexivity|].
  destruct (proj2 (writers_always_close Main.gone_away []
                     [Main.IoConnect; Main.IoIsConnected] eq_refl) 7%Z "hello")
    as (evs & Hlog & _).
  reflexivity.
Defined.

Section ReaderRuns.

Import Main.

Variable s : server.

(** How [login_user] runs once it holds a connection. *)
Lemma login_run (user : UserLogin) (h h1 : log) :
  get_db_connection s h = (Ok (Some tt), h1) ->
  let c := IoCursor true in
  let x := IoExecute SELECT_BY_NAME [SqlStr (login_username user)] in
  login_user s user h =
  match conn_cursor s h1 with
  | Throw e => (Throw e, (h1 ++ [c])%list)
  | Ok _ =>
  match cursor_execute s (h1 ++ [c])%list SELECT_BY_NAME [SqlStr (login_username user)] with
  | Throw e => (Throw e, (h1 ++ [c; x])%list)
  | Ok _ =>
  match cursor_fetchone s (h1 ++ [c; x])%list with
  | Throw e => (Throw e, (h1 ++ [c; x; IoFetchone])%list)
  | Ok db_user =>
  match conn_close s (h1 ++ [c; x; IoFetchone])%list with
  | Throw e => (Throw e, (h1 ++ [c; x; IoFetchone; IoClose])%list)
  | Ok _ =>
  match db_user with
  | None =>
      (Throw (HTTPException 401 "Invalid username or password."),
       (h1 ++ [c; x; IoFetchone; IoClose])%list)
  | Some row =>
      let v := IoVerify (login_password user) (row_password_hash row) in
      match pwd_verify s (h1 ++ [c; x; IoFetchone; IoClose])%list
                       (login_password user) (row_password_hash row) with
      | Throw e => (Throw e, (h1 ++ [c; x; IoFetchone; IoClose; v])%list)
      | Ok false =>
          (Throw (HTTPException 401 "Invalid username or password."),
           (h1 ++ [c; x; IoFetchone; IoClose; v])%list)
      | Ok true =>
          if String.eqb (row_status row) "active"
          then (Ok (LoggedIn "Login successful!"
                      {| pub_id := row_user_id row;
                         pub_username := row_username row;
                         pub_email := row_email row;
                         pub_full_name := row_full_name row;
                         pub_status := row_status row |}),
                (h1 ++ [c; x; IoFetchone; IoClose; v])%list)
          else (Throw (HTTPException 403 "User account is inactive."),
                (h1 ++ [c; x; IoFetchone; IoClose; v])%list)
      end
  end end end end end.
Proof.
  intros Hconn c x. subst c x.
  unfold login_user, io_bind at 1. rewrite Hconn.
  cbv [io_bind io_call execute verify_password throw io_ret].
  assert (E2 : forall a b : io, ((h1 ++ [a]) ++ [b] = h1 ++ [a; b])%list)
    by (intros; rewrite <- app_assoc; reflexivity).
  assert (E3 : forall a b d : io, ((h1 ++ [a; b]) ++ [d] = h1 ++ [a; b; d])%list)
    by (intros; rewrite <- app_assoc; reflexivity).
  assert (E4 : forall a b d e : io, ((h1 ++ [a; b; d]) ++ [e] = h1 ++ [a; b; d; e])%list)
    by (intros; rewrite <- app_assoc; reflexivity).
  assert (E5 : forall a b d e f : io,
             ((h1 ++ [a; b; d; e]) ++ [f] = h1 ++ [a; b; d; e; f])%list)
    by (intros; rewrite <- app_assoc; reflexivity).
  destruct (conn_cursor s h1); [|reflexivity].
  destruct (cursor_execute s (h1 ++ [IoCursor true])%list SELECT_BY_NAME
              [SqlStr (login_username user)]); rewrite !E2; [|reflexivity].
  destruct (cursor_fetchone s (h1 ++ [IoCursor true; IoExecute SELECT_BY_NAME [SqlStr (login_username user)]])%list) as [db_user|e];
    rewrite !E3; [|reflexivity].
  destruct (conn_close s (h1 ++ [IoCursor true; IoExecute SELECT_BY_NAME [SqlStr (login_username user)]; IoFetchone])%list);
    rewrite !E4; [|reflexivity].
  destruct db_user as [row|]; [|reflexivity].
  destruct (pwd_verify s (h1 ++ [IoCursor true; IoExecute SELECT_BY_NAME [SqlStr (login_username user)]; IoFetchone; IoClose])%list
              (login_password user) (row_password_hash row)) as [[]|e];
    rewrite !E5; cbn [negb]; try reflexivity.
  destruct (String.eqb (row_status row) "active"); reflexivity.
Qed.

(** How [get_chat_history] runs once it holds a connection. *)
Lemma get_chat_history_run (user_id : Z) (h h1 : log) :
  get_db_connection s h = (Ok (Some tt), h1) ->
  let c := IoCursor true in
  let x := IoExecute SELECT_SUBMISSIONS [SqlInt user_id] in
  get_chat_history s user_id h =
  match conn_cursor s h1 with
  | Throw e => (Throw e, (h1 ++ [c])%list)
  | Ok _ =>
  match cursor_execute s (h1 ++ [c])%list SELECT_SUBMISSIONS [SqlInt user_id] with
  | Throw e => (Throw e, (h1 ++ [c; x])%list)
  | Ok _ =>
  match cursor_fetchall s (h1 ++ [c; x])%list with
  | Throw e => (Throw e, (h1 ++ [c; x; IoFetchall])%list)
  | Ok submissions =>
  match conn_close s (h1 ++ [c; x; IoFetchall])%list with
  | Throw e => (Throw e, (h1 ++ [c; x; IoFetchall; IoClose])%list)
  | Ok _ => (Ok (History submissions), (h1 ++ [c; x; IoFetchall; IoClose])%list)
  end end end end.
Proof.
  intros Hconn c x. subst c x.
  unfold get_chat_history, io_bind at 1. rewrite Hconn.
  cbv [io_bind io_call execute io_ret].
  destruct (conn_cursor s h1); [|reflexivity].
  destruct (cursor_execute s (h1 ++ [IoCursor true])%list SELECT_SUBMISSIONS [SqlInt user_id]);
    rewrite <- ?app_assoc; cbn [app]; [|reflexivity].
  destruct (cursor_fetchall s (h1 ++ [IoCursor true; IoExecute SELECT_SUBMISSIONS [SqlInt user_id]])%list) as [submissions|e];
    [|reflexivity].
  rewrite <- ?app_assoc; cbn [app].
  destruct (conn_close s (h1 ++ [IoCursor true; IoExecute SELECT_SUBMISSIONS [SqlInt user_id]; IoFetchall])%list);
    rewrite <- ?app_assoc; reflexivity.
Qed.

End ReaderRuns.

(** X14.  A login only succeeds for a user the database returned, whose
    stored hash [verify_password] accepted for the submitted password,
    and whose status is "active"; the connection was closed before the
    password was checked, and the reply carries that row's id, name,
    e-mail, full name and status. *)
Theorem login_success_is_verified (s : Main.server) (user : Main.UserLogin)
    (h h' : Main.log) (r : Main.reply)
    (Hok : Main.login_user s user h = (Main.Ok r, h')) :
  exists h1 row,
    Main.get_db_connection s h = (Main.Ok (Some tt), h1) /\
    Main.cursor_fetchone s
      (h1 ++ [Main.IoCursor true;
              Main.IoExecute Main.SELECT_BY_NAME [Main.SqlStr (Main.login_username user)]])%list
      = Main.Ok (Some row) /\
    Main.pwd_verify s
      (h1 ++ [Main.IoCursor true;
              Main.IoExecute Main.SELECT_BY_NAME [Main.SqlStr (Main.login_username user)];
              Main.IoFetchone; Main.IoClose])%list
      (Main.login_password user) (Main.row_password_hash row) = Main.Ok true /\
    Main.row_status row = "active" /\
    r = Main.LoggedIn "Login successful!"
          {| Main.pub_id := Main.row_user_id row;
             Main.pub_username := Main.row_username row;
             Main.pub_email := Main.row_email row;
             Main.pub_full_name := Main.row_full_name row;
             Main.pub_status := Main.row_status row |} /\
    h' = (h1 ++ [Main.IoCursor true;
                 Main.IoExecute Main.SELECT_BY_NAME [Main.SqlStr (Main.login_username user)];
                 Main.IoFetchone; Main.IoClose;
                 Main.IoVerify (Main.login_password user) (Main.row_password_hash row)])%list.
Proof.
  destruct (Main.get_db_connection s h) as [[[[]|]|e] h1] eqn:Hconn.
  - rewrite (login_run s user h h1 Hconn) in Hok. cbv zeta in Hok.
    destruct (Main.conn_cursor s h1); [|discriminate].
    destruct (Main.cursor_execute s _ _ _); [|discriminate].
    destruct (Main.cursor_fetchone s _) as [[row|]|] eqn:Hrow; try discriminate;
      destruct (Main.conn_close s _); try discriminate.
    destruct (Main.pwd_verify s _ _ _) as [[]|] eqn:Hverify; try discriminate.
    destruct (String.eqb (Main.row_status row) "active") eqn:Hactive; [|discriminate].
    apply String.eqb_eq in Hactive. injection Hok as <- <-.
    exists h1, row. repeat split; assumption.
  - unfold Main.login_user, Main.io_bind in Hok. rewrite Hconn in Hok. discriminate.
  - unfold Main.login_user, Main.io_bind in Hok. rewrite Hconn in Hok. discriminate.
Qed.

(** Witness of X14: alice logs into the [healthy] server. *)
Lemma login_success_is_verified_alice :
  exists r h',
    Main.login_user Main.healthy
      {| Main.login_username := "alice"; Main.login_password := "wonderland" |} [] =
      (Main.Ok r, h') /\
    r = Main.LoggedIn "Login successful!"
          {| Main.pub_id := 7%Z; Main.pub_username := "alice";
             Main.pub_email := "alice@example.org"; Main.pub_full_name := "Alice L.";
             Main.pub_status := "active" |}.
Proof.
  eexists. eexists. split; [reflexivity|].
  destruct (login_success_is_verified Main.healthy
              {| Main.login_username := "alice"; Main.login_password := "wonderland" |}
              [] _ _ eq_refl) as (h1 & row & _ & _ & _ & _ & Hr & _).
  reflexivity.
Defined.

(** X15.  When the queries of [login_user] go through, an unknown user
    and a wrong password are turned away with the very same exception
    (401, "Invalid username or password."), the password is not checked
    at all for an unknown user, and "User account is inactive." (403)
    is only ever said after the password was accepted. *)
Theorem login_rejections (s : Main.server) (user : Main.UserLogin) (h h1 : Main.log)
    (found : option Main.user_row)
    (Hconn : Main.get_db_connection s h = (Main.Ok (Some tt), h1))
    (Hcursor : Main.conn_cursor s h1 = Main.Ok tt)
    (Hexecute : Main.cursor_execute s (h1 ++ [Main.IoCursor true])%list Main.SELECT_BY_NAME
                  [Main.SqlStr (Main.login_username user)] = Main.Ok tt)
    (Hfetch : Main.cursor_fetchone s
                (h1 ++ [Main.IoCursor true;
                        Main.IoExecute Main.SELECT_BY_NAME
                          [Main.SqlStr (Main.login_username user)]])%list = Main.Ok found)
    (Hclose : Main.conn_close s
                (h1 ++ [Main.IoCursor true;
                        Main.IoExecute Main.SELECT_BY_NAME
                          [Main.SqlStr (Main.login_username user)];
                        Main.IoFetchone])%list = Main.Ok tt) :
  let queried :=
    (h1 ++ [Main.IoCursor true;
            Main.IoExecute Main.SELECT_BY_NAME [Main.SqlStr (Main.login_username user)];
            Main.IoFetchone; Main.IoClose])%list in
  let denied := Main.Throw (Main.HTTPException 401 "Invalid username or password.") in
  match found with
  | None => Main.login_user s user h = (denied, queried)
  | Some row =>
      let checked :=
        (queried ++ [Main.IoVerify (Main.login_password user) (Main.row_password_hash row)])%list in
      match Main.pwd_verify s queried (Main.login_password user) (Main.row_password_hash row) with
      | Main.Ok false => Main.login_user s user h = (denied, checked)
      | Main.Ok true =>
          String.eqb (Main.row_status row) "active" = false ->
          Main.login_user s user h =
            (Main.Throw (Main.HTTPException 403 "User account is inactive."), checked)
      | Main.Throw e => Main.login_user s user h = (Main.Throw e, checked)
      end
  end.
Proof.
  cbv zeta. rewrite (login_run s user h h1 Hconn). cbv zeta.
  rewrite Hcursor, Hexecute, Hfetch, Hclose.
  destruct found as [row|]; [|reflexivity].
  rewrite <- app_assoc. cbn [app].
  destruct (Main.pwd_verify s _ _ _) as [[]|]; try reflexivity.
  intros ->. reflexivity.
Qed.

(** Witness of X15: a stranger, and alice with a wrong password. *)
Lemma login_rejections_healthy :
  Main.login_user Main.healthy
    {| Main.login_username := "mallory"; Main.login_password := "guess" |} [] =
    (Main.Throw (Main.HTTPException 401 "Invalid username or password."),
     [Main.IoConnect; Main.IoIsConnected; Main.IoCursor true;
      Main.IoExecute Main.SELECT_BY_NAME [Main.SqlStr "mallory"];
      Main.IoFetchone; Main.IoClose]) /\
  fst (Main.login_user Main.healthy
         {| Main.login_username := "alice"; Main.login_password := "guess" |} []) =
    Main.Throw (Main.HTTPException 401 "Invalid username or password.").
Proof.
  split.
  - exact (login_rejections Main.healthy
             {| Main.login_username := "mallory"; Main.login_password := "guess" |}
             [] [Main.IoConnect; Main.IoIsConnected] None
             eq_refl eq_refl eq_refl eq_refl eq_refl).
  - rewrite (login_rejections Main.healthy
               {| Main.login_username := "alice"; Main.login_password := "guess" |}
               [] [Main.IoConnect; Main.IoIsConnected] (Some Main.alice)
               eq_refl eq_refl eq_refl eq_refl eq_refl).
    reflexivity.
Defined.

(** X16.  [login_user] and [get_chat_history] close their connection
    only on the straight path.  When the cursor, the query or the fetch
    raises, that very exception leaves the endpoint and the log ends
    there, without a close; when all three go through, the close is the
    next call, and it is the only close of the run. *)
Theorem readers_close_only_after_fetch (s : Main.server) (h h1 : Main.log)
    (Hconn : Main.get_db_connection s h = (Main.Ok (Some tt), h1)) :
  (forall user,
     let c := Main.IoCursor true in
     let x := Main.IoExecute Main.SELECT_BY_NAME [Main.SqlStr (Main.login_username user)] in
     match Main.conn_cursor s h1 with
     | Main.Throw e => Main.login_user s user h = (Main.Throw e, (h1 ++ [c])%list)
     | Main.Ok _ =>
     match Main.cursor_execute s (h1 ++ [c])%list Main.SELECT_BY_NAME
             [Main.SqlStr (Main.login_username user)] with
     | Main.Throw e => Main.login_user s user h = (Main.Throw e, (h1 ++ [c; x])%list)
     | Main.Ok _ =>
     match Main.cursor_fetchone s (h1 ++ [c; x])%list with
     | Main.Throw e =>
         Main.login_user s user h = (Main.Throw e, (h1 ++ [c; x; Main.IoFetchone])%list)
     | Main.Ok _ =>
         exists evs,
           snd (Main.login_user s user h) =
             (h1 ++ [c; x; Main.IoFetchone; Main.IoClose] ++ evs)%list /\
           Main.count Main.is_close evs = 0
     end end end) /\
  (forall user_id,
     let c := Main.IoCursor true in
     let x := Main.IoExecute Main.SELECT_SUBMISSIONS [Main.SqlInt user_id] in
     match Main.conn_cursor s h1 with
     | Main.Throw e => Main.get_chat_history s user_id h = (Main.Throw e, (h1 ++ [c])%list)
     | Main.Ok _ =>
     match Main.cursor_execute s (h1 ++ [c])%list Main.SELECT_SUBMISSIONS
             [Main.SqlInt user_id] with
     | Main.Throw e => Main.get_chat_history s user_id h = (Main.Throw e, (h1 ++ [c; x])%list)
     | Main.Ok _ =>
     match Main.cursor_fetchall s (h1 ++ [c; x])%list with
     | Main.Throw e =>
         Main.get_chat_history s user_id h =
           (Main.Throw e, (h1 ++ [c; x; Main.IoFetchall])%list)
     | Main.Ok submissions =>
         Main.get_chat_history s user_id h =
           (match Main.conn_close s (h1 ++ [c; x; Main.IoFetchall])%list with
            | Main.Ok _ => Main.Ok (Main.History submissions)
            | Main.Throw e => Main.Throw e
            end,
            (h1 ++ [c; x; Main.IoFetchall; Main.IoClose])%list)
     end end end).
Proof.
  split.
  - intro user. cbv zeta. rewrite (login_run s user h h1 Hconn). cbv zeta.
    destruct (Main.conn_cursor s h1); [|reflexivity].
    destruct (Main.cursor_execute s _ _ _); [|reflexivity].
    destruct (Main.cursor_fetchone s _) as [[row|]|]; [| |reflexivity];
      (destruct (Main.conn_close s _); [|exists []; split; reflexivity]).
    + destruct (Main.pwd_verify s _ _ _) as [[]|];
        [destruct (String.eqb (Main.row_status row) "active")| |];
        eexists [_]; split; reflexivity.
    + exists []. split; reflexivity.
  - intro user_id. cbv zeta. rewrite (get_chat_history_run s user_id h h1 Hconn). cbv zeta.
    destruct (Main.conn_cursor s h1); [|reflexivity].
    destruct (Main.cursor_execute s _ _ _); [|reflexivity].
    destruct (Main.cursor_fetchall s _); [|reflexivity].
    destruct (Main.conn_close s _); reflexivity.
Qed.

(** Witness of X16: reading the history while the server goes away
    raises the MySQL error and leaves the connection open. *)
Lemma readers_close_only_after_fetch_gone_away :
  Main.get_db_connection Main.gone_away [] =
    (Main.Ok (Some tt), [Main.IoConnect; Main.IoIsConnected]) /\
  Main.get_chat_history Main.gone_away 7%Z [] =
    (Main.Throw (Main.MysqlError "2006: MySQL server has gone away"),
     [Main.IoConnect; Main.IoIsConnected; Main.IoCursor true;
      Main.IoExecute Main.SELECT_SUBMISSIONS [Main.SqlInt 7%Z]]).
Proof.
  split; [reflexivity|].
  exact (proj2 (readers_close_only_after_fetch Main.gone_away []
                  [Main.IoConnect; Main.IoIsConnected] eq_refl) 7%Z).
Defined.

(** X17.  A registration is only reported as done after the lookup by
    username or e-mail found nobody, the password was hashed, and the
    row with that hash (never the password itself) and the status
    "active" was inserted and committed, and the connection closed, in
    that order and with nothing else in between. *)
Theorem registration_success_steps (s : Main.server) (user : Main.UserRegister)
    (h h' : Main.log) (m : string)
    (Hok : Main.register_user s user h = (Main.Ok (Main.Registered m), h')) :
  exists h1 hashed_pw,
    Main.get_db_connection s h = (Main.Ok (Some tt), h1) /\
    Main.cursor_fetchone s
      (h1 ++ [Main.IoCursor false;
              Main.IoExecute Main.SELECT_BY_NAME_OR_EMAIL
                [Main.SqlStr (Main.reg_username user); Main.SqlStr (Main.reg_email user)]])%list
      = Main.Ok None /\
    Main.pwd_hash s
      (h1 ++ [Main.IoCursor false;
              Main.IoExecute Main.SELECT_BY_NAME_OR_EMAIL
                [Main.SqlStr (Main.reg_username user); Main.SqlStr (Main.reg_email user)];
              Main.IoFetchone])%list
      (Main.reg_password user) = Main.Ok hashed_pw /\
    m = "User '" ++ Main.reg_username user ++ "' registered successfully." /\
    h' = (h1 ++ [Main.IoCursor false;
                 Main.IoExecute Main.SELECT_BY_NAME_OR_EMAIL
                   [Main.SqlStr (Main.reg_username user); Main.SqlStr (Main.reg_email user)];
                 Main.IoFetchone;
                 Main.IoHash (Main.reg_password user);
                 Main.IoExecute Main.INSERT_USER
                   [Main.SqlStr (Main.reg_username user); Main.SqlStr hashed_pw;
                    Main.SqlStr (Main.reg_email user); Main.SqlStr (Main.reg_full_name user);
                    Main.SqlStr "active"];
                 Main.IoCommit; Main.IoClose])%list.
Proof.
  unfold Main.register_user, Main.io_bind at 1 in Hok.
  destruct (Main.get_db_connection s h) as [[[[]|]|e] h1] eqn:Hconn; try discriminate.
  cbv [Main.try_finally Main.io_bind Main.io_call Main.execute Main.hash_password Main.io_ret]
    in Hok.
  destruct (Main.conn_cursor s h1).
  2:{ destruct (Main.conn_close s _); discriminate. }
  destruct (Main.cursor_execute s _ _ _).
  2:{ destruct (Main.conn_close s _); discriminate. }
  rewrite <- !app_assoc in Hok. cbn [app] in Hok.
  destruct (Main.cursor_fetchone s _) as [[row|]|] eqn:Hfetch.
  1,3: destruct (Main.conn_close s _); discriminate.
  rewrite <- !app_assoc in Hok. cbn [app] in Hok.
  destruct (Main.pwd_hash s _ _) as [hashed_pw|] eqn:Hhash.
  2:{ destruct (Main.conn_close s _); discriminate. }
  destruct (Main.cursor_execute s _ _ _).
  2:{ destruct (Main.conn_close s _); discriminate. }
  destruct (Main.conn_commit s _).
  2:{ destruct (Main.conn_close s _); discriminate. }
  destruct (Main.conn_close s _); [|discriminate].
  injection Hok as <- <-.
  exists h1, hashed_pw. rewrite <- !app_assoc. cbn [app]. auto.
Qed.

(** Witness of X17: bob registers with the [healthy] server. *)
Lemma registration_success_steps_bob :
  exists h',
    Main.register_user Main.healthy
      {| Main.reg_username := "bob"; Main.reg_password := "builder";
         Main.reg_email := "bob@example.org"; Main.reg_full_name := "Bob B." |} [] =
      (Main.Ok (Main.Registered "User 'bob' registered successfully."), h') /\
    In (Main.IoExecute Main.INSERT_USER
          [Main.SqlStr "bob"; Main.SqlStr "$2b$12$hash-of-builder";
           Main.SqlStr "bob@example.org"; Main.SqlStr "Bob B."; Main.SqlStr "active"]) h'.
Proof.
  eexists. split; [reflexivity|].
  destruct (registration_success_steps Main.healthy
              {| Main.reg_username := "bob"; Main.reg_password := "builder";
                 Main.reg_email := "bob@example.org"; Main.reg_full_name := "Bob B." |}
              [] _ _ eq_refl) as (h1 & hashed_pw & _).
  simpl. tauto.
Defined.

(** X18.  When the lookup finds a row with the username or the e-mail,
    [register_user] hashes nothing, inserts nothing and commits
    nothing: it closes the connection and returns status 400 (or
    raises what the close raised). *)
Theorem registration_refused_for_existing (s : Main.server) (user : Main.UserRegister)
    (h h1 : Main.log) (row : Main.user_row)
    (Hconn : Main.get_db_connection s h = (Main.Ok (Some tt), h1))
    (Hcursor : Main.conn_cursor s h1 = Main.Ok tt)
    (Hexecute : Main.cursor_execute s (h1 ++ [Main.IoCursor false])%list
                  Main.SELECT_BY_NAME_OR_EMAIL
                  [Main.SqlStr (Main.reg_username user); Main.SqlStr (Main.reg_email user)]
                = Main.Ok tt)
    (Hfetch : Main.cursor_fetchone s
                (h1 ++ [Main.IoCursor false;
                        Main.IoExecute Main.SELECT_BY_NAME_OR_EMAIL
                          [Main.SqlStr (Main.reg_username user);
                           Main.SqlStr (Main.reg_email user)]])%list = Main.Ok (Some row)) :
  let queried :=
    (h1 ++ [Main.IoCursor false;
            Main.IoExecute Main.SELECT_BY_NAME_OR_EMAIL
              [Main.SqlStr (Main.reg_username user); Main.SqlStr (Main.reg_email user)];
            Main.IoFetchone])%list in
  Main.register_user s user h =
    (match Main.conn_close s queried with
     | Main.Ok _ => Main.Ok (Main.JSONResponse 400 "Username or email already exists.")
     | Main.Throw e => Main.Throw e
     end,
     (queried ++ [Main.IoClose])%list).
Proof.
  cbv zeta. unfold Main.register_user, Main.io_bind at 1. rewrite Hconn.
  cbv [Main.try_finally Main.io_bind Main.io_call Main.execute Main.hash_password Main.io_ret].
  rewrite Hcursor, Hexecute. rewrite <- !app_assoc. cbn [app]. rewrite Hfetch.
  rewrite <- !app_assoc. cbn [app].
  destruct (Main.conn_close s _); reflexivity.
Qed.

(** Witness of X18: alice is already there. *)
Lemma registration_refused_for_existing_alice :
  Main.register_user Main.healthy
    {| Main.reg_username := "alice"; Main.reg_password := "again";
       Main.reg_email := "a2@example.org"; Main.reg_full_name := "Alice Two" |} [] =
    (Main.Ok (Main.JSONResponse 400 "Username or email already exists."),
     [Main.IoConnect; Main.IoIsConnected; Main.IoCursor false;
      Main.IoExecute Main.SELECT_BY_NAME_OR_EMAIL
        [Main.SqlStr "alice"; Main.SqlStr "a2@example.org"];
      Main.IoFetchone; Main.IoClose]).
Proof.
  exact (registration_refused_for_existing Main.healthy
           {| Main.reg_username := "alice"; Main.reg_password := "again";
              Main.reg_email := "a2@example.org"; Main.reg_full_name := "Alice Two" |}
           [] [Main.IoConnect; Main.IoIsConnected] Main.alice
           eq_refl eq_refl eq_refl eq_refl).
Defined.

(** X19.  The chat endpoint always answers with a ["text"] reply and
    never opens or reads an image; what it answers depends on the
    message alone, not on the chat history sent with it, and is what
    the handler says to that message without an image. *)
Theorem chat_endpoint_is_text_only (w : world) (request : Main.ChatRequest) (h : trace) :
  (exists answer evs,
     Main.handle_chat w request h = (Ret (Main.Chat answer), (h ++ evs)%list) /\
     freaksearch_handler w (Some (Main.message request)) None h =
       (Ret answer, (h ++ evs)%list) /\
     calls is_image_open evs = 0 /\ calls is_ocr evs = 0 /\
     calls is_search evs <= 1 /\ calls is_generate evs <= 2) /\
  (forall history,
     Main.handle_chat w {| Main.message := Main.message request;
                           Main.chatHistory := history |} h =
     Main.handle_chat w request h).
Proof.
  split; [|reflexivity].
  destruct (handler_calls w (Some (Main.message request)) None h)
    as (answer & evs & Hrun & Hs & Hg & Hi & Ho & _).
  exists answer, evs. unfold Main.handle_chat, bind, ret. rewrite Hrun.
  simpl in Hi. rewrite Hi in Ho.
  repeat split; try assumption; lia.
Qed.

(* ===================================================================== *)
(** ** The evidence bundle and the image branch, on whole runs *)
(* ===================================================================== *)

(** Counterexample of C8: the provider of [greedy] returns four entries
    although three were asked for.  Nothing in the code cuts the result
    list, so the bundle has four sources and the run of the handler
    makes four fetches. *)
Lemma bundle_follows_greedy_provider :
  ~ bundle_within_cap Cases.greedy "The moon landing was faked" [] /\
  calls is_fetch
    (snd (freaksearch_handler Cases.greedy (Some "The moon landing was faked") None [])) = 4.
Proof.
  split; [|reflexivity].
  intro H.
  destruct (gather_run Cases.greedy Cases.four_results 0 "" []
              [EvSearch "The moon landing was faked" 3])
    as (context & evs & Hloop & _).
  destruct (H Cases.four_results [EvSearch "The moon landing was faked" 3] context
              (usable_links Cases.four_results) _ eq_refl Hloop) as [_ Hcap].
  simpl in Hcap. lia.
Qed.

(** C8, amended.  In every run of [verify_misinformation] the search
    and the evidence loop end normally; the sources of the bundle are
    exactly the usable links of the search results, in order, so never
    more than the results, with one fetch for each; and this bundle is
    what the run goes on with (the fixed messages, or the analysis
    prompt built from this context and these sources).  The sources,
    and the fetches of a whole handler run, are at most three provided
    the search provider returns no more entries than the [num=3] it is
    asked for: the code does not cut the result list itself.  A result
    whose fetch fails stays in the bundle with an empty [Content:] and
    its URL in the source list; a result without a usable link adds
    nothing to either. *)
Theorem evidence_bundle_bounds (w : world) :
  (forall claim h, exists results h1 context sources h2,
     search_the_web_google w claim h = (Ret results, h1) /\
     gather w 0 results "" [] h1 = (Ret (context, sources), h2) /\
     sources = usable_links results /\
     length sources <= length results /\
     calls is_fetch h2 = calls is_fetch h + length sources /\
     (honours_num w -> length results <= 3 /\ length sources <= 3) /\
     verify_misinformation w claim h =
       match results with
       | [] => (Ret MSG_NO_RESULTS, h1)
       | _ :: _ =>
           if truthy_str (GEMINI_API_KEY w)
           then (match generate_content w h2 (verdict_prompt claim context sources) with
                 | Ret text => Ret text
                 | Raise e => Ret ("Gemini analysis error: " ++ e)
                 end,
                 (h2 ++ [EvGenerate (verdict_prompt claim context sources)])%list)
           else (Ret MSG_NO_GEMINI, h2)
       end) /\
  (forall user_input image_bytes h, exists answer evs,
     freaksearch_handler w user_input image_bytes h = (Ret answer, (h ++ evs)%list) /\
     (honours_num w -> calls is_fetch evs <= 3)) /\
  (forall i result rest context sources h url e,
     link result = Some url -> url <> "" -> fetch_fails w h url e ->
     gather w i (result :: rest) context sources h =
     gather w (S i) rest (context ++ source_entry i result url "") (sources ++ [url])%list
            (h ++ [EvHttpGet url; EvPrint ("Error scraping " ++ url ++ ": " ++ e)])%list) /\
  (forall i result rest context sources h,
     truthy_str (link result) = false ->
     gather w i (result :: rest) context sources h = gather w (S i) rest context sources h).
Proof.
  split; [|split; [|split]].
  - intros claim h.
    destruct (search_calls w claim h)
      as (results & evs & Hsearch & _ & Hf & _ & _ & _ & Hcap & _).
    destruct (gather_run w results 0 "" [] (h ++ evs)%list)
      as (context & evs' & Hloop & Hf' & _).
    pose proof (usable_links_length results) as Hle.
    exists results, (h ++ evs)%list, context, (usable_links results), ((h ++ evs) ++ evs')%list.
    split; [exact Hsearch|]. split; [exact Hloop|]. split; [reflexivity|].
    split; [exact Hle|]. split; [rewrite !calls_app, Hf, Hf'; lia|].
    split; [intro Hnum; specialize (Hcap Hnum); lia|].
    rewrite verify_run, Hsearch. destruct results as [|r rs]; [reflexivity|].
    rewrite Hloop. destruct (truthy_str (GEMINI_API_KEY w)); cbn [negb]; [|reflexivity].
    destruct (generate_content w _ _); reflexivity.
  - intros user_input image_bytes h.
    destruct (handler_calls w user_input image_bytes h)
      as (answer & evs & Hrun & _ & _ & _ & _ & Hf & _).
    exists answer, evs. auto.
  - intros i result rest context sources h url e Hlink Hurl Hfail.
    rewrite gather_cons, Hlink. destruct url as [|c u]; [congruence|].
    cbn [truthy_str PyStr.of_opt]. cbv zeta. rewrite scrape_run.
    destruct Hfail as [-> | (response & -> & ->)]; reflexivity.
  - intros i result rest context sources h Hlink.
    rewrite gather_cons, Hlink. reflexivity.
Qed.

(** Witness of C8, amended: the [online] world answers a search with
    three results, one without a link and one whose site is down; the
    entry of the site that is down is kept, with nothing after
    [Content:], and the provider keeps to the number asked for. *)
Lemma evidence_bundle_bounds_online :
  honours_num Scenarios.online /\
  (exists context h2,
     gather Scenarios.online 0 Scenarios.moon_results "" []
            [EvSearch "The moon landing was faked" 3] =
       (Ret (context, ["https://a.example/apollo"; "https://b.example/down"]), h2)) /\
  gather Scenarios.online 2
         [ {| title := None; link := Some "https://b.example/down"; snippet := None |} ]
         "" ["https://a.example/apollo"] [] =
    (Ret ("Source [3]: None" ++ PyStr.NL ++ "URL: https://b.example/down" ++ PyStr.NL ++
          "Content: " ++ PyStr.NL ++ PyStr.NL,
          ["https://a.example/apollo"; "https://b.example/down"]),
     [EvHttpGet "https://b.example/down";
      EvPrint "Error scraping https://b.example/down: ConnectTimeout"]) /\
  exists answer evs,
    freaksearch_handler Scenarios.online (Some "The moon landing was faked") None [] =
      (Ret answer, evs) /\
    calls is_fetch evs <= 3.
Proof.
  assert (H : honours_num Scenarios.online).
  { intros h q n r l Hr Hl. injection Hr as <-. injection Hl as <-.
    apply firstn_le_length. }
  split; [exact H|]. split; [|split].
  - destruct (proj1 (evidence_bundle_bounds Scenarios.online) "The moon landing was faked" [])
      as (results & h1 & context & sources & h2 & Hsearch & Hloop & Hsources & _).
    injection Hsearch as <- <-. subst sources.
    exists context, h2. exact Hloop.
  - rewrite (proj1 (proj2 (proj2 (evidence_bundle_bounds Scenarios.online)))
               2 {| title := None; link := Some "https://b.example/down"; snippet := None |}
               [] "" ["https://a.example/apollo"] [] "https://b.example/down"
               "ConnectTimeout" eq_refl ltac:(discriminate) (or_introl eq_refl)).
    reflexivity.
  - destruct (proj1 (proj2 (evidence_bundle_bounds Scenarios.online))
                (Some "The moon landing was faked") None [])
      as (answer & evs & Hrun & Hf).
    exists answer, evs. split; [exact Hrun|exact (Hf H)].
Defined.

(** C10.  When a non-empty image payload is supplied, the handler runs
    [get_text_from_image] on it and goes on with the text that comes
    out of it and with nothing else: if that text is empty or [None]
    the answer is the fixed "no text read from image" message, and
    otherwise the run continues exactly as a run on that text typed
    in, without an image.  The user text sent along changes neither
    the answer nor the calls, and the handler returns normally.  The
    user text is what the handler classifies and verifies exactly when
    no image payload ([None] or empty bytes) is present. *)
Theorem image_overrides_text (w : world) (image_bytes : option bytes)
    (Himage : truthy_bytes image_bytes = true) :
  (forall user_input h, exists extracted h1,
     get_text_from_image w (match image_bytes with Some b => b | None => [] end) h =
       (Ret extracted, h1) /\
     freaksearch_handler w user_input image_bytes h =
       if truthy_str extracted
       then freaksearch_handler w extracted None h1
       else (Ret MSG_NO_IMAGE_TEXT, h1)) /\
  (forall text1 text2 h,
     freaksearch_handler w text1 image_bytes h = freaksearch_handler w text2 image_bytes h) /\
  (forall user_input h, exists answer h',
     freaksearch_handler w user_input image_bytes h = (Ret answer, h')) /\
  (forall h,
     freaksearch_handler w None None h = (Ret MSG_NO_INPUT, h) /\
     freaksearch_handler w (Some "") None h = (Ret MSG_NO_INPUT, h)) /\
  (forall c r no_image h,
     truthy_bytes no_image = false ->
     freaksearch_handler w (Some (String c r)) no_image h =
     match recognize_intent w (String c r) h with
     | (Ret greeting, h1) => (Ret MSG_GREETING, h1)
     | (Ret fact_checking_claim, h1) => verify_misinformation w (String c r) h1
     | (Ret general_question, h1) => (Ret MSG_ONLY_CLAIMS, h1)
     | (Raise e, h1) => (Raise e, h1)
     end).
Proof.
  split; [|split; [|split; [|split]]].
  - intros user_input h.
    destruct (get_text_appends w (match image_bytes with Some b => b | None => [] end) h)
      as (extracted & evs & Hrun & _).
    exists extracted, (h ++ evs)%list. split; [exact Hrun|].
    unfold freaksearch_handler at 1. rewrite Himage. unfold bind. rewrite Hrun.
    destruct (truthy_str extracted); reflexivity.
  - intros text1 text2 h. unfold freaksearch_handler. rewrite Himage. reflexivity.
  - intros user_input h.
    destruct (handler_appends w user_input image_bytes h) as (answer & evs & H & _). eauto.
  - intro h. split; reflexivity.
  - intros c r no_image h Hfalse. unfold freaksearch_handler. rewrite Hfalse.
    cbn [respond]. unfold bind.
    destruct (recognize_intent w (String c r) h) as [[[]|e] h1]; reflexivity.
Qed.

(** Witness of C10: an image of the word "Hello" next to a typed claim.
    The claim is not looked at: the run opens the image, reads "Hello"
    and answers the greeting. *)
Lemma image_overrides_text_png :
  truthy_bytes (Some Scenarios.png) = true /\
  get_text_from_image Scenarios.online Scenarios.png [] =
    (Ret (Some "Hello"), [EvImageOpen Scenarios.png; EvOcr Scenarios.png]) /\
  freaksearch_handler Scenarios.online (Some "The moon landing was faked")
                      (Some Scenarios.png) [] =
  freaksearch_handler Scenarios.online (Some "Hello") None
                      [EvImageOpen Scenarios.png; EvOcr Scenarios.png].
Proof.
  split; [reflexivity|]. split; [reflexivity|].
  destruct (proj1 (image_overrides_text Scenarios.online (Some Scenarios.png) eq_refl)
              (Some "The moon landing was faked") [])
    as (extracted & h1 & Hrun & Hhandler).
  vm_compute in Hrun. injection Hrun as <- <-.
  exact Hhandler.
Defined.
